(** * EC-Earth4-Tools: the cached post-reader, the EOF projector,
      the restart reader and the leg roll-back tool

    A shallow embedding of
      - [osprey/utils/vardict.py]      (the variable catalogue),
      - [osprey/actions/post_reader.py] ([reader_averaged],
        [postreader_averaged], [averaging], [reader_restart]),
      - [osprey/means/eof.py]           ([process_data], [project_eofs]),
      - [martini/roll_back_ece4.py]     (the update of [leginfo.yml], the
        restarts restored, the years of output removed),
      - [paleotest/descriptor_generator.py] ([get_info_grid]),
    followed by the properties of these functions.

    Conventions.  Python exceptions are values of [PyErr]; a call that can
    raise returns a [Result].  Code that touches the file system is written
    in a state-and-exception monad over a [World] holding the files (a finite
    map from paths to contents) and the trace of the effects performed so
    far.  Functions of numpy, xarray, cftime, yaml and of the osprey modules
    that are not part of the sources at hand are fields of a library record;
    the theorems hold for every such library. *)

From Stdlib Require Import ZArith Lia Ascii.
From stdpp Require Import gmap strings list pretty.

Open Scope Z_scope.

#[local] Set Warnings "-register-all".

(** ** Python values, exceptions and strings *)

Module Py.

Inductive PyErr : Type :=
  | FileNotFoundError
  | OSError
  | KeyError
  | IndexError
  | AttributeError
  | UnboundLocalError
  | ValueError
  | CalledProcessError
  | TypeError
  | OtherError (msg : string).

Inductive Result (A : Type) : Type :=
  | Ok (a : A)
  | Raise (e : PyErr).

Arguments Ok {A} a.
Arguments Raise {A} e.

Definition rbind {A B} (r : Result A) (k : A -> Result B) : Result B :=
  match r with
  | Ok a => k a
  | Raise e => Raise e
  end.

Definition is_ok {A} (r : Result A) : bool :=
  match r with Ok _ => true | Raise _ => false end.

(** [d[k]] on a dictionary given as a partial function. *)
Definition getitem {A} (o : option A) : Result A :=
  match o with
  | Some a => Ok a
  | None => Raise KeyError
  end.

(** [l[i]] for a Python list and a non-negative or negative index. *)
Definition list_getitem {A} (l : list A) (i : Z) : Result A :=
  let n := Z.of_nat (length l) in
  let j := if i <? 0 then i + n else i in
  if (0 <=? j) && (j <? n)
  then match nth_error l (Z.to_nat j) with
       | Some a => Ok a
       | None => Raise IndexError
       end
  else Raise IndexError.

(** [range(n)] and [range(a, b)] over Python integers. *)
Definition range2 (a b : Z) : list Z :=
  map (fun k => a + Z.of_nat k) (seq 0 (Z.to_nat (b - a))).

Definition range (n : Z) : list Z := range2 0 n.

(** [str(n)] for an integer. *)
Definition str (n : Z) : string := pretty n.

(** [sub in s]. *)
Fixpoint contains (sub s : string) : bool :=
  String.prefix sub s ||
  match s with
  | EmptyString => false
  | String _ s' => contains sub s'
  end.

(** [s.split(c)] for a separator of one character. *)
Fixpoint split (c : Ascii.ascii) (s : string) : list string :=
  match s with
  | EmptyString => [EmptyString]
  | String a s' =>
      if Ascii.eqb a c then EmptyString :: split c s'
      else match split c s' with
           | h :: t => String a h :: t
           | [] => [String a EmptyString]
           end
  end.

(** [s.split(c, 1)] when [c in s]: the text before and after the first
    occurrence; [None] when [c] does not occur. *)
Fixpoint split_first (c : Ascii.ascii) (s : string) : option (string * string) :=
  match s with
  | EmptyString => None
  | String a s' =>
      if Ascii.eqb a c then Some (EmptyString, s')
      else match split_first c s' with
           | Some (h, t) => Some (String a h, t)
           | None => None
           end
  end.

Fixpoint ends_with_sep (s : string) : bool :=
  match s with
  | EmptyString => false
  | String a EmptyString => Ascii.eqb a "/"%char
  | String _ s' => ends_with_sep s'
  end.

(** [os.path.join(a, b)] (posixpath). *)
Definition path_join (a b : string) : string :=
  if String.prefix "/" b then b
  else if (String.eqb a "") || ends_with_sep a then a +:+ b
  else a +:+ "/" +:+ b.

Fixpoint zeros (n : nat) : string :=
  match n with
  | O => EmptyString
  | S n' => String "0"%char (zeros n')
  end.

(** [s.zfill(width)]. *)
Definition zfill (width : nat) (s : string) : string :=
  let n := String.length s in
  if (width <=? n)%nat then s
  else match s with
       | String a s' =>
           if Ascii.eqb a "-"%char || Ascii.eqb a "+"%char
           then String a (zeros (width - n) +:+ s')
           else zeros (width - n) +:+ s
       | EmptyString => zeros (width - n)
       end.

End Py.

Export Py.

(** ** The variable catalogue ([osprey/utils/vardict.py]) *)

Module Vardict.

(** The ['grid'] entry is a tag, or a list of tags for derived quantities. *)
Inductive Grid : Type :=
  | GridTag (g : string)
  | GridList (gs : list string).

(** One entry of the catalogue.  The ['operation'] and ['preprocessing']
    closures of the derived quantities are not represented; their
    ['dependencies'] are. *)
Record VarInfo : Type := mk_info {
  dim : string;
  grid : Grid;
  units : string;
  long_name : string;
  dependencies : list string
}.

Definition nemo_list : list (string * VarInfo) :=
  [ ("e3t", mk_info "3D" (GridTag "T") "m" "T-cell thickness" []);
    ("thetao", mk_info "3D" (GridTag "T") "degC" "Temperature" []);
    ("so", mk_info "3D" (GridTag "T") "PSU" "Salinity" []);
    ("tos", mk_info "2D" (GridTag "T") "degC" "Sea-surface temperature" []);
    ("sos", mk_info "2D" (GridTag "T") "PSU" "Sea-surface salinity" []);
    ("zos", mk_info "2D" (GridTag "T") "m" "Sea surface height" []);
    ("sstdcy", mk_info "2D" (GridTag "T") "degC" "Sea-surface temperature diurnal cycle" []);
    ("mldkz5", mk_info "2D" (GridTag "T") "m" "Turbocline depth" []);
    ("mldr10_1", mk_info "2D" (GridTag "T") "m" "Mixed layer depth" []);
    ("mldr10_1dcy", mk_info "2D" (GridTag "T") "m" "Amplitude of mldr10_1 diurnal cycle" []);
    ("sbt", mk_info "2D" (GridTag "T") "degC" "Sea bottom temperature" []);
    ("heatc", mk_info "2D" (GridTag "T") "J/m^2" "Heat content vertically integrated" []);
    ("saltc", mk_info "2D" (GridTag "T") "PSU*kg/m^2" "Salt content vertically integrated" []);
    ("wfo", mk_info "2D" (GridTag "T") "kg/m^2/s" "Net upward water flux" []);
    ("qsr_oce", mk_info "2D" (GridTag "T") "W/m^2" "Solar heat flux at ocean surface" []);
    ("qns_oce", mk_info "2D" (GridTag "T") "W/m^2" "Non-solar heat flux at ocean surface (including E-P)" []);
    ("qt_oce", mk_info "2D" (GridTag "T") "W/m^2" "Total flux at ocean surface" []);
    ("sfx", mk_info "2D" (GridTag "T") "g/m2/s" "Downward salt flux" []);
    ("taum", mk_info "2D" (GridTag "T") "N/m^2" "Surface downward wind stress" []);
    ("windsp", mk_info "2D" (GridTag "T") "m/s" "Wind speed" []);
    ("precip", mk_info "2D" (GridTag "T") "kg/m2/s" "Precipitation flux" []);
    ("snowpre", mk_info "2D" (GridTag "T") "kg/m2/s" "Snowfall flux" []);
    ("e3u", mk_info "3D" (GridTag "U") "m" "U-cell thickness" []);
    ("uo", mk_info "3D" (GridTag "U") "m/s" "Ocean current along i-axis" []);
    ("uos", mk_info "2D" (GridTag "U") "m/s" "Ocean surface current along i-axis" []);
    ("tauuo", mk_info "2D" (GridTag "U") "N/m^2" "Wind stress along i-axis" []);
    ("uocetr_eff", mk_info "3D" (GridTag "U") "m^3/s" "Effective ocean transport along i-axis" []);
    ("vozomatr", mk_info "3D" (GridTag "U") "kg/s" "Ocean mass transport along i-axis" []);
    ("sozohetr", mk_info "2D" (GridTag "U") "W" "Heat transport along i-axis" []);
    ("sozosatr", mk_info "2D" (GridTag "U") "1e-3*kg/s" "Salt transport along i-axis" []);
    ("e3v", mk_info "3D" (GridTag "V") "m" "V-cell thickness" []);
    ("vo", mk_info "3D" (GridTag "V") "m/s" "Ocean current along j-axis" []);
    ("vos", mk_info "2D" (GridTag "V") "m/s" "Ocean surface current along j-axis" []);
    ("tauvo", mk_info "2D" (GridTag "V") "N/m^2" "Wind stress along j-axis" []);
    ("vocetr_eff", mk_info "3D" (GridTag "V") "m^3/s" "Effective ocean transport along j-axis" []);
    ("vomematr", mk_info "3D" (GridTag "V") "kg/s" "Ocean mass transport along j-axis" []);
    ("somehetr", mk_info "2D" (GridTag "V") "W" "Heat transport along j-axis" []);
    ("somesatr", mk_info "2D" (GridTag "V") "1e-3*kg/s" "Salt transport along j-axis" []);
    ("e3w", mk_info "3D" (GridTag "W") "m" "W-cell thickness" []);
    ("wo", mk_info "3D" (GridTag "W") "m/s" "Ocean vertical velocity" []);
    ("difvho", mk_info "3D" (GridTag "W") "m^2/s" "Vertical eddy diffusivity" []);
    ("vovematr", mk_info "3D" (GridTag "W") "kg/s" "Vertical mass transport" []);
    ("av_wave", mk_info "3D" (GridTag "W") "m^2/s" "Internal wave-induced vertical diffusivity" []);
    ("bn2", mk_info "3D" (GridTag "W") "1/s^2" "Squared Brunt-Vaisala frequency" []);
    ("bflx_iwm", mk_info "3D" (GridTag "W") "W/kg" "Internal wave-induced buoyancy flux" []);
    ("pcmap_iwm", mk_info "2D" (GridTag "W") "W/m^2" "Power consumption by wave-driven mixing" []);
    ("emix_iwm", mk_info "3D" (GridTag "W") "W/kg" "Power density available for mixing" []);
    ("av_ratio", mk_info "3D" (GridTag "W") "-" "S over T diffusivity ratio" []);
    ("keos", mk_info "2D" (GridList ["U"; "V"]) "m^2/s^2" "Surface Kinetic Energy" ["uos"; "vos"]);
    ("keoh", mk_info "3D" (GridList ["U"; "V"]) "m^2/s^2" "Horizontal Kinetic Energy" ["uo"; "vo"]);
    ("keo", mk_info "3D" (GridList ["U"; "V"; "W"]) "m^2/s^2" "Total Kinetic Energy" ["uo"; "vo"; "wo"]);
    ("rho", mk_info "3D" (GridList ["T"; "T"]) "kg/m^3" "Potential Density" ["thetao"; "so"]);
    ("woto", mk_info "3D" (GridList ["T"; "W"]) "K*m/s" "Buoyancy flux" ["thetao"; "wo"]) ].

(** [vardict(component)]: the dictionary is bound only for ['nemo']; for
    any other component the local name is read before assignment. *)
Definition vardict (component : string) : Result (gmap string VarInfo) :=
  if String.eqb component "nemo"
  then Ok (list_to_map nemo_list)
  else Raise UnboundLocalError.

(** A value as the caller of [vardict('nemo')[varname]] holds it: the
    catalogue entry is a dictionary, and the callers compare it with
    string literals. *)
Inductive PyVal : Type :=
  | PyStr (s : string)
  | PyDict (d : VarInfo).

(** Python's [==] between such values: a dictionary and a string are never
    equal. *)
Definition py_eq_str (v : PyVal) (s : string) : bool :=
  match v with
  | PyStr t => String.eqb t s
  | PyDict _ => false
  end.

End Vardict.

(** ** The state-and-exception monad of the file-system code *)

Module Effects.

Notation "'let*' x ':=' c 'in' k" := (rbind c (fun x => k))
  (at level 10, x pattern, c at level 100, k at level 200, only parsing).

Section Monad.

Context {W : Type}.

(** A computation runs in a world and ends in a value or an exception;
    the effects performed before an exception stay in the world. *)
Definition M (A : Type) : Type := W -> Result A * W.

Definition ret {A} (a : A) : M A := fun w => (Ok a, w).

Definition raise {A} (e : PyErr) : M A := fun w => (Raise e, w).

Definition bind {A B} (c : M A) (k : A -> M B) : M B := fun w =>
  match c w with
  | (Ok a, w') => k a w'
  | (Raise e, w') => (Raise e, w')
  end.

Definition lift {A} (r : Result A) : M A := fun w => (r, w).

Definition modify (f : W -> W) : M unit := fun w => (Ok tt, f w).

Definition gets {A} (f : W -> A) : M A := fun w => (Ok (f w), w).

(** [try: c  except FileNotFoundError: pass], with the value of [c] kept
    when it returns: any other exception propagates. *)
Definition except_FileNotFoundError {A} (c : M A) : M (option A) := fun w =>
  match c w with
  | (Ok a, w') => (Ok (Some a), w')
  | (Raise FileNotFoundError, w') => (Ok None, w')
  | (Raise e, w') => (Raise e, w')
  end.

(** [for x in xs: body x]. *)
Fixpoint for_each {A} (xs : list A) (body : A -> M unit) : M unit :=
  match xs with
  | [] => ret tt
  | x :: xs' => bind (body x) (fun _ => for_each xs' body)
  end.

(** [for x in xs: acc = body x acc], a loop that updates one local. *)
Fixpoint for_fold {A S} (xs : list A) (body : A -> S -> M S) (acc : S) : M S :=
  match xs with
  | [] => ret acc
  | x :: xs' => bind (body x acc) (fun acc' => for_fold xs' body acc')
  end.

End Monad.

Arguments M W A : clear implicits.

Notation "'do*' x ':=' c 'in' k" := (bind c (fun x => k))
  (at level 10, x pattern, c at level 100, k at level 200, only parsing).

End Effects.

Export Effects.

(** ** The cached post-reader ([osprey/actions/post_reader.py]) *)

Module PostReader.

Import Vardict.

(** An [xarray.DataArray] and an [xarray.Dataset] over arrays of type
    [Arr]: dictionaries are finite maps, so that a later entry of a
    dictionary display replaces an earlier one with the same key. *)
Record DataArray (Arr : Type) : Type := mk_da {
  da_data : Arr;
  da_dims : list string;
  da_coords : gmap string Arr;
  da_attrs : gmap string string
}.

Arguments mk_da {Arr}.
Arguments da_data {Arr}.
Arguments da_dims {Arr}.
Arguments da_coords {Arr}.
Arguments da_attrs {Arr}.

Record Dataset (Arr : Type) : Type := mk_ds {
  ds_vars : gmap string (DataArray Arr);
  ds_attrs : gmap string string
}.

Arguments mk_ds {Arr}.
Arguments ds_vars {Arr}.
Arguments ds_attrs {Arr}.

(** The directory roles that [folders(expname)] resolves and that the
    code reads: [dirs['perm']], [dirs['tmp']], [dirs['osprey']]. *)
Record Dirs : Type := mk_dirs {
  perm : string;
  tmp : string;
  osprey : string
}.

(** The content of [meanfield.yaml] as the post-reader reads it: when the
    key ['meanfield'] is present, its value is the list
    [[{expname: e}, {startyear: y0}, {endyear: y1}]]. *)
Record Meanfield : Type := mk_meanfield {
  mf_expname : string;
  mf_startyear : Z;
  mf_endyear : Z
}.

Record Config : Type := mk_config {
  meanfield : option Meanfield
}.

(** The functions that [post_reader.py] imports from numpy, xarray, yaml
    and from the osprey modules [folders], [reader], [means].  The raw
    model output, the grid files and [meanfield.yaml] are read through
    these functions; the module never writes them. *)
Record Lib : Type := mk_lib {
  Arr : Type;
  File : Type;
  folders : string -> Dirs;
  elements : string -> Result (gmap string Arr);
  reader_nemo : string -> Z -> Z -> Result (Dataset Arr);
  yaml_load : string -> Result Config;
  cost : Dataset Arr -> Dataset Arr -> string -> Result (Dataset Arr);
  spacemean : Dataset Arr -> string -> PyVal -> option string -> Result Arr;
  timemean : Dataset Arr -> string -> Result Arr;
  get_decimal_year : Arr -> Result Arr;
  flatten : Arr -> Arr;
  weighted_mean : DataArray Arr -> Arr -> list string -> Result Arr;
  netcdf_encode : Dataset Arr -> File;
  netcdf_decode : File -> Result (Dataset Arr)
}.

Section Model.

Variable L : Lib.

Local Abbreviation Arr := (Arr L).
Local Abbreviation File := (File L).
Local Abbreviation DataArray := (DataArray Arr).
Local Abbreviation Dataset := (Dataset Arr).

(** The effects the post-reader performs, in the order it performs them. *)
Inductive Event : Type :=
  | EvOpenDataset (filename : string)
  | EvReaderNemo (expname : string) (startyear endyear : Z)
  | EvYamlLoad (filename : string)
  | EvCost (xdata mdata : Dataset) (metrics : string)
  | EvAveraging (expname : string) (data : Dataset) (varlabel diagname : string)
  | EvMakedirs (path : string)
  | EvRemove (filename : string)
  | EvToNetcdf (filename : string) (ds : Dataset).

(** The NetCDF files of the permanent archives, and the effects so far. *)
Record World : Type := mk_world {
  files : gmap string File;
  trace : list Event
}.

Definition emit (e : Event) : M World unit :=
  modify (fun w => mk_world (files w) (trace w ++ [e])).

(** [xr.open_dataset(filename, use_cftime=True)]. *)
Definition open_dataset (filename : string) : M World Dataset :=
  do* _ := emit (EvOpenDataset filename) in
  do* f := gets (fun w => files w !! filename) in
  match f with
  | None => raise FileNotFoundError
  | Some c => lift (netcdf_decode L c)
  end.

(** [ds.to_netcdf(filename)]. *)
Definition to_netcdf (ds : Dataset) (filename : string) : M World unit :=
  do* _ := emit (EvToNetcdf filename ds) in
  modify (fun w => mk_world (<[filename := netcdf_encode L ds]> (files w)) (trace w)).

(** Modelled from the spec: [osprey.utils.utils.remove_existing_file] is
    not among the sources; the product is persisted "overwriting if
    replace=true", so the helper deletes the file when it is there. *)
Definition remove_existing_file (filename : string) : M World unit :=
  do* _ := emit (EvRemove filename) in
  modify (fun w => mk_world (delete filename (files w)) (trace w)).

(** [os.makedirs(path, exist_ok=True)]: directories carry no content. *)
Definition makedirs (path : string) : M World unit :=
  emit (EvMakedirs path).

(** The name of a cached product:
    [f"{diagname}_{varlabel}_{metrics}_{startyear}-{endyear}.nc"]. *)
Definition product_name (diagname varlabel metrics : string)
    (startyear endyear : Z) : string :=
  diagname +:+ "_" +:+ varlabel +:+ "_" +:+ metrics +:+ "_" +:+
  str startyear +:+ "-" +:+ str endyear +:+ ".nc".

Definition product_path (expname : string) (startyear endyear : Z)
    (varlabel diagname metrics : string) : string :=
  path_join (perm (folders L expname))
            (product_name diagname varlabel metrics startyear endyear).

Definition reader_averaged (expname : string) (startyear endyear : Z)
    (varlabel diagname metrics : string) : M World Dataset :=
  let filename :=
    path_join (perm (folders L expname))
              (product_name diagname varlabel metrics startyear endyear) in
  open_dataset filename.

(** [varname, subregion] from [varlabel]. *)
Definition split_varlabel (varlabel : string) : string * option string :=
  match split_first "-" varlabel with
  | Some (varname, subregion) => (varname, Some subregion)
  | None => (varlabel, None)
  end.

(** [vardict('nemo')[varname]]. *)
Definition vardict_nemo (varname : string) : Result PyVal :=
  let* d := vardict "nemo" in
  let* info := getitem (d !! varname) in
  Ok (PyDict info).

(** [data[name]] and [da.name] for an attribute of a data array. *)
Definition ds_getitem (data : Dataset) (name : string) : Result DataArray :=
  getitem (ds_vars data !! name).

Definition da_getattr (da : DataArray) (name : string) : Result string :=
  match da_attrs da !! name with
  | Some v => Ok v
  | None => Raise AttributeError
  end.

Definition attrs2 (k1 v1 k2 v2 : string) : gmap string string :=
  <[k2 := v2]> (<[k1 := v1]> ∅).

Definition coords_yx (y x : DataArray) : gmap string Arr :=
  <["x" := da_data x]> (<["y" := da_data y]> ∅).

(** The ['lat'] or ['lon'] entry of a map or field product. *)
Definition horizontal (data : Dataset) (name long : string) : Result DataArray :=
  let* v := ds_getitem data name in
  let* y := ds_getitem data "y" in
  let* x := ds_getitem data "x" in
  Ok (mk_da (da_data v) ["y"; "x"] (coords_yx y x)
            (attrs2 "units" "deg" "long_name" long)).

(** [averaging(expname, data, varlabel, diagname)].  The local [ds] is
    bound by the branch that runs, if one does; [return ds] reads it. *)
Definition averaging (expname : string) (data : Dataset)
    (varlabel diagname : string) : Result Dataset :=
  let '(varname, subregion) := split_varlabel varlabel in
  let* df := elements L expname in
  let* ndim := vardict_nemo varname in
  (* timeseries *)
  let* ds :=
    if String.eqb diagname "timeseries" then
      let* time := ds_getitem data "time" in
      let* tvec := get_decimal_year L (da_data time) in
      let* vec := spacemean L data varname ndim subregion in
      let* v := ds_getitem data varname in
      let* u := da_getattr v "units" in
      let* v' := ds_getitem data varname in
      let* ln := da_getattr v' "long_name" in
      Ok (Some (mk_ds
        (<[varlabel := mk_da vec ["time"] (<["time" := tvec]> ∅)
                             (attrs2 "units" u "long_name" ln)]>
         (<["time" := mk_da tvec ["time"] (<["time" := tvec]> ∅)
                            (attrs2 "units" "years" "long_name" "years")]> ∅))
        (<["description" := "ECE4/NEMO averaged timeseries data"]> ∅)))
    else Ok None in
  (* vertical profile *)
  let* ds :=
    if String.eqb diagname "profile" && py_eq_str ndim "3D" then
      let* z := ds_getitem data "z" in
      let zvec := flatten L (da_data z) in
      let* v := ds_getitem data varname in
      let* area := getitem (df !! "area") in
      let* m := weighted_mean L v area ["time"; "y"; "x"] in
      let vec := flatten L m in
      let* v' := ds_getitem data varname in
      let* u := da_getattr v' "units" in
      let* v'' := ds_getitem data varname in
      let* ln := da_getattr v'' "long_name" in
      Ok (Some (mk_ds
        (<[varname := mk_da vec ["z"] (<["z" := zvec]> ∅)
                            (attrs2 "units" u "long_name" ln)]>
         (<["z" := mk_da zvec ["z"] (<["z" := zvec]> ∅)
                         (attrs2 "units" "m" "long_name" "depth")]> ∅))
        (<["description" := "ECE4/NEMO averaged profiles"]> ∅)))
    else Ok ds in
  (* hovmoller diagram *)
  let* ds :=
    if String.eqb diagname "hovmoller" && py_eq_str ndim "3D" then
      let* time := ds_getitem data "time" in
      let* tvec := get_decimal_year L (da_data time) in
      let* vec := spacemean L data varname (PyStr "2D") None in
      let* z := ds_getitem data "z" in
      let* v := ds_getitem data varname in
      let* u := da_getattr v "units" in
      let* v' := ds_getitem data varname in
      let* ln := da_getattr v' "long_name" in
      Ok (Some (mk_ds
        (<[varlabel := mk_da vec ["time"; "z"]
                             (<["z" := da_data z]> (<["time" := tvec]> ∅))
                             (attrs2 "units" u "long_name" ln)]>
         (<["z" := mk_da (da_data z) ["z"] (<["z" := da_data z]> ∅)
                         (attrs2 "units" "m" "long_name" "depth")]>
          (<["time" := mk_da tvec ["time"] (<["time" := tvec]> ∅)
                             (attrs2 "units" "years" "long_name" "years")]> ∅)))
        (<["description" := "ECE4/NEMO averaged hovmoller diagram"]> ∅)))
    else Ok ds in
  (* map *)
  let* ds :=
    if String.eqb diagname "map" then
      let* vec :=
        if py_eq_str ndim "2D" then
          let* a := timemean L data varname in Ok (Some a)
        else Ok None in
      let* vec :=
        if py_eq_str ndim "3D" then
          let* a := spacemean L data varname ndim None in Ok (Some a)
        else Ok vec in
      let* lat := horizontal data "lat" "latitude" in
      let* lon := horizontal data "lon" "longitude" in
      match vec with
      | None => Raise UnboundLocalError
      | Some vec =>
          let* y := ds_getitem data "y" in
          let* x := ds_getitem data "x" in
          let* v := ds_getitem data varname in
          let* u := da_getattr v "units" in
          let* v' := ds_getitem data varname in
          let* ln := da_getattr v' "long_name" in
          Ok (Some (mk_ds
            (<[varlabel := mk_da vec ["y"; "x"] (coords_yx y x)
                                 (attrs2 "units" u "long_name" ln)]>
             (<["lon" := lon]> (<["lat" := lat]> ∅)))
            (<["description" := "ECE4/NEMO averaged map"]> ∅)))
      end
    else Ok ds in
  (* field, three-dimensional *)
  let* ds :=
    if String.eqb diagname "field" && py_eq_str ndim "3D" then
      let* vec := timemean L data varname in
      let* lat := horizontal data "lat" "latitude" in
      let* lon := horizontal data "lon" "longitude" in
      let* z := ds_getitem data "z" in
      let* y := ds_getitem data "y" in
      let* x := ds_getitem data "x" in
      let* v := ds_getitem data varname in
      let* u := da_getattr v "units" in
      let* v' := ds_getitem data varname in
      let* ln := da_getattr v' "long_name" in
      Ok (Some (mk_ds
        (<[varlabel := mk_da vec ["z"; "y"; "x"]
                             (<["x" := da_data x]> (<["y" := da_data y]>
                               (<["z" := da_data z]> ∅)))
                             (attrs2 "units" u "long_name" ln)]>
         (<["z" := mk_da (da_data z) ["z"] (<["z" := da_data z]> ∅)
                         (attrs2 "units" "m" "long_name" "depth")]>
          (<["lon" := lon]> (<["lat" := lat]> ∅))))
        (<["description" := "ECE4/NEMO time-averaged field"]> ∅)))
    else Ok ds in
  (* field, two-dimensional *)
  let* ds :=
    if String.eqb diagname "field" && py_eq_str ndim "2D" then
      let* vec := timemean L data varname in
      let* lat := horizontal data "lat" "latitude" in
      let* lon := horizontal data "lon" "longitude" in
      let* y := ds_getitem data "y" in
      let* x := ds_getitem data "x" in
      let* v := ds_getitem data varname in
      let* u := da_getattr v "units" in
      let* v' := ds_getitem data varname in
      let* ln := da_getattr v' "long_name" in
      Ok (Some (mk_ds
        (<[varlabel := mk_da vec ["y"; "x"] (coords_yx y x)
                             (attrs2 "units" u "long_name" ln)]>
         (<["lon" := lon]> (<["lat" := lat]> ∅)))
        (<["description" := "ECE4/NEMO time-averaged field"]> ∅)))
    else Ok ds in
  match ds with
  | Some ds => Ok ds
  | None => Raise UnboundLocalError
  end.

(** The reference experiment and years read from the configuration:
    the three locals are bound only when ['meanfield'] is a key. *)
Definition meanfield_locals (config : Config) : Result (string * Z * Z) :=
  match meanfield config with
  | Some mf => Ok (mf_expname mf, mf_startyear mf, mf_endyear mf)
  | None => Raise UnboundLocalError
  end.

(** [postreader_averaged(expname, startyear, endyear, varlabel, diagname,
    replace, metrics)]. *)
Definition postreader_averaged (expname : string) (startyear endyear : Z)
    (varlabel diagname : string) (replace : bool) (metrics : string)
    : M World Dataset :=
  let '(varname, subregion) := split_varlabel varlabel in
  let dirs := folders L expname in
  do* df := lift (elements L expname) in
  do* ndim := lift (vardict_nemo varname) in
  (* try to read averaged data *)
  do* found :=
    except_FileNotFoundError
      (if negb replace
       then do* data := reader_averaged expname startyear endyear
                                        varlabel diagname metrics in
            ret (Some data)
       else ret None) in
  match found with
  | Some (Some data) => ret data
  | _ =>
      (* if averaged data not existing, read original data *)
      do* _ := emit (EvReaderNemo expname startyear endyear) in
      do* xdata := lift (reader_nemo L expname startyear endyear) in
      do* xdata :=
        if negb (String.eqb metrics "base") then
          let filename := path_join (osprey dirs) "meanfield.yaml" in
          do* _ := emit (EvYamlLoad filename) in
          do* config := lift (yaml_load L filename) in
          do* (exp0, y0, y1) := lift (meanfield_locals config) in
          do* mdata := reader_averaged exp0 y0 y1 varlabel "field" "base" in
          do* _ := emit (EvCost xdata mdata metrics) in
          lift (cost L xdata mdata metrics)
        else ret xdata in
      do* _ := emit (EvAveraging expname xdata varlabel diagname) in
      do* ds := lift (averaging expname xdata varlabel diagname) in
      (* write averaged data on file *)
      do* _ := makedirs (perm dirs) in
      let filename :=
        path_join (perm dirs)
                  (product_name diagname varlabel metrics startyear endyear) in
      do* _ := (if replace then remove_existing_file filename else ret tt) in
      do* _ := to_netcdf ds filename in
      (* now you can read *)
      reader_averaged expname startyear endyear varlabel diagname metrics
  end.

End Model.

End PostReader.

(** ** The EOF projector ([osprey/means/eof.py]) *)

Module Eof.

Import PostReader (Dirs, perm, tmp, osprey).

(** The entries of [catalogue.observables('nemo')[varname]] that the
    projector reads: [info['dim']] and [info['grid']]. *)
Record Info : Type := mk_obs {
  dim : string;
  grid : string
}.

(** An element of a time axis: a cftime date, or a decimal year. *)
Inductive TimeVal (Date Num : Type) : Type :=
  | TDate (d : Date)
  | TNum (x : Num).

Arguments TDate {Date Num} d.
Arguments TNum {Date Num} x.

(** The functions that [eof.py] imports from numpy, xarray, cftime,
    subprocess and from the osprey modules [folders], [time],
    [catalogue].  [DS] is an xarray object (a [Dataset] or a
    [DataArray]), [Num] a float. *)
Record Lib : Type := mk_lib {
  DS : Type;
  File : Type;
  Date : Type;
  Num : Type;
  folders : string -> Dirs;
  observables : string -> Result (gmap string Info);
  get_forecast_year : Z -> Z -> Z;
  get_decimal_year : list Date -> Result (list Num);
  DatetimeGregorian : Z -> Z -> Z -> Z -> Z -> Z -> Result Date;
  (* xr.DataArray(data, dims, coords, attrs) over a time axis *)
  DataArray : list (TimeVal Date Num) -> list string ->
              list (string * list (TimeVal Date Num)) ->
              list (string * string) -> DS;
  netcdf_decode : File -> Result DS;
  netcdf_encode : DS -> File;
  rename_dims : list (string * string) -> DS -> Result DS;
  rename : list (string * string) -> DS -> Result DS;
  drop_vars : list string -> DS -> Result DS;
  drop_vars_ignore : list string -> DS -> DS;
  isel : list (string * Z) -> DS -> Result DS;
  ds_lookup : DS -> string -> option DS;
  time_values : DS -> Result (list Date);
  setitem_values : DS -> string -> list Num -> Result DS;
  setitem : DS -> string -> DS -> Result DS;
  mul_int : DS -> Z -> Result DS;
  mul : DS -> DS -> Result DS;
  iadd : DS -> DS -> Result DS;
  polyfit : DS -> string -> Z -> bool -> Result DS;
  polyval : DS -> DS -> Result DS;
  values2 : DS -> Result (Num * Num);
  transpose : DS -> list string -> Result DS;
  check_output : string -> Result string;
  splitlines : string -> list string;
  strip : string -> string;
  float : string -> Result Num;
  (* the float literal 0.9 *)
  float_0_9 : Num;
  np_sum : list Num -> Num;
  nadd : Num -> Num -> Num;
  ndiv : Num -> Num -> Num;
  nlt : Num -> Num -> bool
}.

Section Model.

Variable L : Lib.

Local Abbreviation DS := (DS L).
Local Abbreviation File := (File L).
Local Abbreviation Num := (Num L).
Local Abbreviation TimeVal := (TimeVal (Date L) (Num L)).

Inductive Event : Type :=
  | EvOpen (filename : string)
  | EvSubprocess (command : string)
  | EvRemove (filename : string)
  | EvToNetcdf (filename : string) (field : DS).

Record World : Type := mk_world {
  files : gmap string File;
  trace : list Event
}.

Definition emit (e : Event) : M World unit :=
  modify (fun w => mk_world (files w) (trace w ++ [e])).

(** [_forecast_xarray(foreyear, use_cftime)]. *)
Definition _forecast_xarray (foreyear : Z) (use_cftime : bool) : Result DS :=
  let* d := DatetimeGregorian L foreyear 1 16 12 0 0 in
  let* fdate :=
    if negb use_cftime then
      let* ys := get_decimal_year L [d] in
      let* y := list_getitem ys 0 in
      Ok (TNum y)
    else Ok (TDate d) in
  Ok (DataArray L [fdate] ["time"] [("time", [fdate])]
        [("stardand_name", "time"); ("long_name", "Time axis");
         ("bounds", "time_counter_bnds"); ("axis", "T")]).

Definition lower_char (a : Ascii.ascii) : Ascii.ascii :=
  let n := Ascii.nat_of_ascii a in
  if ((65 <=? n) && (n <=? 90))%nat then Ascii.ascii_of_nat (n + 32) else a.

(** [s.lower()] on ASCII text. *)
Fixpoint lower (s : string) : string :=
  match s with
  | EmptyString => EmptyString
  | String a s' => String (lower_char a) (lower s')
  end.

Definition is_grid (grid : string) : bool :=
  bool_decide (grid ∈ ["T"; "U"; "V"; "W"]).

(** The renaming conventions of one grid, [_grid_mapping(grid)]. *)
Record GridMapping : Type := mk_mapping {
  map_x : string;
  map_y : string;
  map_lat : string;
  map_lon : string;
  map_z : string
}.

Definition _grid_mapping (grid : string) : Result GridMapping :=
  let grid_lower := lower grid in
  if is_grid grid then
    Ok (mk_mapping ("x_grid_" +:+ grid) ("y_grid_" +:+ grid)
                   ("nav_lat_grid_" +:+ grid) ("nav_lon_grid_" +:+ grid)
                   ("depth" +:+ grid_lower))
  else Raise ValueError.

(** [process_data(data, ftype, dim, grid)]. *)
Definition process_data (data : DS) (ftype dim grid : string) : Result DS :=
  if negb (bool_decide (dim ∈ ["2D"; "3D"])) then Raise ValueError
  else if negb (is_grid grid) then Raise ValueError
  else
    let* grid_mappings := _grid_mapping grid in
    if String.eqb ftype "pattern" then
      let* data := rename_dims L [(map_x grid_mappings, "x");
                                  (map_y grid_mappings, "y")] data in
      let* data := rename L [(map_lat grid_mappings, "lat");
                             (map_lon grid_mappings, "lon")] data in
      let* data := rename L [("time_counter", "time")] data in
      let data := drop_vars_ignore L ["time_counter_bnds"] data in
      if String.eqb dim "3D" then
        let* data := rename L [(map_z grid_mappings, "z")] data in
        Ok (drop_vars_ignore L [map_z grid_mappings +:+ "_bnds"] data)
      else Ok data
    else if String.eqb ftype "series" then
      let* data := rename L [("time_counter", "time")] data in
      let* data := isel L [("lon", 0); ("lat", 0)] data in
      let data := drop_vars_ignore L ["time_counter_bnds"; "lon"; "lat"] data in
      if String.eqb dim "3D" then
        let* data := isel L [("zaxis_Reduced", 0)] data in
        Ok (drop_vars_ignore L ["zaxis_Reduced"] data)
      else Ok data
    else if String.eqb ftype "post" then
      let* data := rename L [("time", "time_counter")] data in
      if String.eqb dim "3D" then rename L [("z", "nav_lev")] data
      else Ok data
    else Raise ValueError.

(** [xr.open_mfdataset(filename, use_cftime=True, preprocess=...)] on the
    path of one file: without a file there is nothing to open. *)
Definition open_mfdataset (filename : string) (preprocess : DS -> Result DS)
    : M World DS :=
  do* _ := emit (EvOpen filename) in
  do* f := gets (fun w => files w !! filename) in
  match f with
  | None => raise OSError
  | Some c => lift (let* data := netcdf_decode L c in preprocess data)
  end.

(** Modelled from the spec: [osprey.utils.utils.remove_existing_filelist]
    is not among the sources; the result is written "replacing any prior
    file at that path", so the helper deletes the file when it is there. *)
Definition remove_existing_filelist (filename : string) : M World unit :=
  do* _ := emit (EvRemove filename) in
  modify (fun w => mk_world (delete filename (files w)) (trace w)).

(** [field.to_netcdf(infile, mode='w', unlimited_dims={'time': True})]. *)
Definition to_netcdf (field : DS) (filename : string) : M World unit :=
  do* _ := emit (EvToNetcdf filename field) in
  modify (fun w => mk_world (<[filename := netcdf_encode L field]> (files w)) (trace w)).

(** [p[name]] and [p.name]. *)
Definition ds_getitem (p : DS) (name : string) : Result DS :=
  getitem (ds_lookup L p name).

Definition ds_getattr (p : DS) (name : string) : Result DS :=
  match ds_lookup L p name with
  | Some v => Ok v
  | None => Raise AttributeError
  end.

(** [np.cumsum(weights)]. *)
Fixpoint cumsum_from (acc : Num) (ws : list Num) : list Num :=
  match ws with
  | [] => []
  | w :: ws' => let s := nadd L acc w in s :: cumsum_from s ws'
  end.

Definition cumsum (ws : list Num) : list Num :=
  match ws with
  | [] => []
  | w :: ws' => w :: cumsum_from w ws'
  end.

(** [np.searchsorted(a, v)] with the default [side='left']: numpy's
    binary search between [lo] and [hi]. *)
Fixpoint binsearch (a : list Num) (v : Num) (fuel lo hi : nat) : nat :=
  match fuel with
  | O => lo
  | S fuel' =>
      if (lo <? hi)%nat then
        let mid := (lo + (hi - lo) / 2)%nat in
        match a !! mid with
        | Some x =>
            if nlt L x v then binsearch a v fuel' (S mid) hi
            else binsearch a v fuel' lo mid
        | None => lo
        end
      else lo
  end.

Definition searchsorted (a : list Num) (v : Num) : nat :=
  binsearch a v (length a) 0 (length a).

(** The weights read from the text that [cdo info] prints: one per line
    that contains ["Mean"], the fourth field between colons. *)
Fixpoint parse_weights (lines : list string) : Result (list Num) :=
  match lines with
  | [] => Ok []
  | line :: rest =>
      if contains "Mean" line then
        let* field := list_getitem (split ":" line) 3 in
        let* mean_value := float L (strip L field) in
        let* weights := parse_weights rest in
        Ok (mean_value :: weights)
      else parse_weights rest
  end.

Definition cumulative_weights (weights : list Num) : list Num :=
  map (fun c => ndiv L c (np_sum L weights)) (cumsum weights).

Section Project.

Variables (expname varname : string) (endleg yearspan yearleap : Z).

Definition startleg : Z := endleg - yearspan + 1.
Definition startyear : Z := 1990 + startleg - 2.
Definition endyear : Z := 1990 + endleg - 2.
Definition neofs : Z := endyear - startyear + 1.

(** [os.path.join(dirs['tmp'], str(endleg).zfill(3), name)]. *)
Definition leg_file (name : string) : string :=
  path_join (path_join (tmp (folders L expname)) (zfill 3 (str endleg))) name.

Definition series_file (i : Z) : string :=
  leg_file (varname +:+ "_series_" +:+ zfill 5 (str i) +:+ ".nc").

Definition coefficients_name : string := varname +:+ "_polyfit_coefficients".

(** The body of the loop of [mode == 'full']. *)
Definition full_body (info : Info) (pattern xf yf : DS) (i : Z) (field : DS)
    : M World DS :=
  let filename := series_file i in
  do* timeseries :=
    open_mfdataset filename
      (fun data => process_data data "series" (dim info) (grid info)) in
  lift (
    let* ts := time_values L timeseries in
    let* new_time := get_decimal_year L ts in
    let* timeseries := setitem_values L timeseries "time" new_time in
    let* p := polyfit L timeseries "time" 1 true in
    let* c := ds_getitem p coefficients_name in
    let* mq := values2 L c in
    let* c' := ds_getitem p coefficients_name in
    let* theta := polyval L xf c' in
    let* basis := isel L [("time", i)] pattern in
    let* term := mul L theta basis in
    let* field := iadd L field term in
    setitem L field "time" yf).

(** The body of the loop of [mode == 'reco']. *)
Definition reco_body (info : Info) (pattern : DS) (i : Z) (field : DS)
    : M World DS :=
  let filename := series_file i in
  do* timeseries :=
    open_mfdataset filename
      (fun data => process_data data "series" (dim info) (grid info)) in
  lift (
    let* v := ds_getitem timeseries varname in
    let* theta := isel L [("time", -1)] v in
    let* basis := isel L [("time", i)] pattern in
    let* term := mul L theta basis in
    iadd L field term).

(** The body of the loop of [mode == 'frac']. *)
Definition frac_body (info : Info) (pattern xf : DS) (i : Z) (field : DS)
    : M World DS :=
  let filename := series_file i in
  do* timeseries :=
    open_mfdataset filename
      (fun data => process_data data "series" (dim info) (grid info)) in
  lift (
    let* p := polyfit L timeseries "time" 1 true in
    let* c := ds_getitem p coefficients_name in
    let* theta := polyval L xf c in
    let* basis := isel L [("time", i)] pattern in
    let* term := mul L theta basis in
    iadd L field term).

(** The number of leading EOFs of [mode == 'frac']. *)
Definition frac_feofs (output : string) : Result Z :=
  let threshold_percentage := float_0_9 L in
  let* weights := parse_weights (splitlines L output) in
  let cumulative_weights := cumulative_weights weights in
  Ok (Z.of_nat (searchsorted cumulative_weights threshold_percentage) + 1).

(** The branch on [mode]: the field before its dimensions are fitted. *)
Definition project_mode (info : Info) (pattern xf yf field : DS)
    (mode : string) : M World DS :=
  if String.eqb mode "full" then
    for_fold (range neofs) (full_body info pattern xf yf) field
  else if String.eqb mode "first" then
    full_body info pattern xf yf 0 field
  else if String.eqb mode "reco" then
    do* field := for_fold (range neofs) (reco_body info pattern) field in
    lift (drop_vars L ["time"] field)
  else if String.eqb mode "frac" then
    let cdo_command :=
      "cdo info -div " +:+ varname +:+ "_variance.nc -timsum " +:+
      varname +:+ "_variance.nc" in
    do* _ := emit (EvSubprocess cdo_command) in
    do* output := lift (check_output L cdo_command) in
    do* feofs := lift (frac_feofs output) in
    for_fold (range feofs) (frac_body info pattern xf) field
  else if String.eqb mode "fit" then
    let filename := leg_file (varname +:+ ".nc") in
    do* data :=
      open_mfdataset filename
        (fun data => process_data data "pattern" (dim info) (grid info)) in
    lift (
      let* v := ds_getitem data varname in
      let* p := polyfit L v "time" 1 true in
      let* c := ds_getattr p "polyfit_coefficients" in
      polyval L xf c)
  else ret field.

(** The dimensions are fitted before the field is written. *)
Definition fit_dimensions (info : Info) (field : DS) : Result DS :=
  let* field :=
    if String.eqb (dim info) "3D"
    then transpose L field ["time"; "z"; "y"; "x"]
    else Ok field in
  if String.eqb (dim info) "2D"
  then transpose L field ["time"; "y"; "x"]
  else Ok field.

(** [project_eofs(expname, varname, endleg, yearspan, yearleap, mode)]. *)
Definition project_eofs (mode : string) : M World DS :=
  do* d := lift (observables L "nemo") in
  do* info := lift (getitem (d !! varname)) in
  let dirs := folders L expname in
  (* forecast year *)
  let foreyear := get_forecast_year L endyear yearleap in
  do* xf := lift (_forecast_xarray foreyear false) in
  do* yf := lift (_forecast_xarray foreyear true) in
  (* prepare patterns for EOFs *)
  let filename := leg_file (varname +:+ "_pattern.nc") in
  do* pattern :=
    open_mfdataset filename
      (fun data => process_data data "pattern" (dim info) (grid info)) in
  do* field := lift (let* p0 := isel L [("time", 0)] pattern in mul_int L p0 0) in
  do* field := project_mode info pattern xf yf field mode in
  (* fit dimensions before writing on file *)
  do* field := lift (fit_dimensions info field) in
  let infile := leg_file (varname +:+ "_eof.nc") in
  do* _ := remove_existing_filelist infile in
  do* _ := to_netcdf field infile in
  ret field.

End Project.

End Model.

End Eof.

(** ** The reader of restart files ([reader_restart] of
       [osprey/actions/post_reader.py]) *)

Module RestartReader.

(** The functions [reader_restart] imports: [get_leg] from
    [osprey.utils.time], [reader_rebuilt] from [osprey.actions.reader] and
    [rebuilder] from [osprey.actions.rebuilder].  [FS] is the state of the
    file system, which both the reader and the rebuilder run in. *)
Record Lib : Type := mk_lib {
  FS : Type;
  Data : Type;
  get_leg : Z -> Z;
  reader_rebuilt : string -> Z -> Z -> M FS Data;
  rebuilder : string -> Z -> M FS unit
}.

Section Model.

Variable L : Lib.

(** The calls made to the two imported functions. *)
Inductive Call : Type :=
  | CallReaderRebuilt (expname : string) (startleg endleg : Z)
  | CallRebuilder (expname : string) (leg : Z).

Record World : Type := mk_world {
  fs : FS L;
  calls : list Call
}.

Definition call {A} (c : Call) (f : M (FS L) A) : M World A := fun w =>
  let '(r, s) := f (fs w) in (r, mk_world s (calls w ++ [c])).

(** [try: return c  except FileNotFoundError: pass]. *)
Definition reader_restart (expname : string) (startyear endyear : Z)
    : M World (Data L) :=
  let startleg := get_leg L startyear in
  let endleg := get_leg L endyear in
  do* found :=
    except_FileNotFoundError
      (call (CallReaderRebuilt expname startleg endleg)
            (reader_rebuilt L expname startleg endleg)) in
  match found with
  | Some data => ret data
  | None =>
      (* rebuild files *)
      do* _ := for_each (range2 startleg (endleg + 1))
                 (fun leg => call (CallRebuilder expname leg)
                                  (rebuilder L expname leg)) in
      call (CallReaderRebuilt expname startleg endleg)
           (reader_rebuilt L expname startleg endleg)
  end.

End Model.

End RestartReader.

(** ** The roll-back tool ([martini/roll_back_ece4.py]): the update of
       [leginfo.yml] *)

Module Rollback.

(** A YAML document as [yaml.load] returns it. *)
Inductive Yaml (Date : Type) : Type :=
  | YNull
  | YBool (b : bool)
  | YInt (n : Z)
  | YStr (s : string)
  | YDate (d : Date)
  | YList (l : list (Yaml Date))
  | YMap (m : list (string * Yaml Date)).

Arguments YNull {Date}.
Arguments YBool {Date} b.
Arguments YInt {Date} n.
Arguments YStr {Date} s.
Arguments YDate {Date} d.
Arguments YList {Date} l.
Arguments YMap {Date} m.

(** [int(s)], [yaml.load], [yaml.dump] and the sum of a date and
    [relativedelta(years=n)]. *)
Record Lib : Type := mk_lib {
  Date : Type;
  File : Type;
  int : string -> Result Z;
  yaml_load : File -> Result (Yaml Date);
  yaml_dump : Yaml Date -> File;
  add_years : Date -> Z -> Result Date;
  date_year : Date -> Z
}.

Definition RUNDIR : string := "/ec/res4/scratch/ccpd/ece4".

Section Model.

Variable L : Lib.

Local Abbreviation Yaml := (Yaml (Date L)).

Fixpoint assoc_get (m : list (string * Yaml)) (k : string) : option Yaml :=
  match m with
  | [] => None
  | (k', v) :: m' => if String.eqb k' k then Some v else assoc_get m' k
  end.

Fixpoint assoc_set (m : list (string * Yaml)) (k : string) (v : Yaml)
    : list (string * Yaml) :=
  match m with
  | [] => [(k, v)]
  | (k', v') :: m' =>
      if String.eqb k' k then (k, v) :: m' else (k', v') :: assoc_set m' k v
  end.

(** [d[k]]. *)
Definition yaml_getitem (d : Yaml) (k : string) : Result Yaml :=
  match d with
  | YMap m => getitem (assoc_get m k)
  | _ => Raise TypeError
  end.

(** [d[k] = v]. *)
Definition yaml_setitem (d : Yaml) (k : string) (v : Yaml) : Result Yaml :=
  match d with
  | YMap m => Ok (YMap (assoc_set m k v))
  | _ => Raise TypeError
  end.

(** [d[k1][k2]...[kn]]. *)
Fixpoint yaml_get_path (d : Yaml) (ks : list string) : Result Yaml :=
  match ks with
  | [] => Ok d
  | k :: ks' => let* d' := yaml_getitem d k in yaml_get_path d' ks'
  end.

(** [d[k1][k2]...[kn][k] = v]: the inner dictionaries are the ones that
    [d] holds, so the assignment shows in [d]. *)
Fixpoint yaml_set_path (d : Yaml) (ks : list string) (k : string) (v : Yaml)
    : Result Yaml :=
  match ks with
  | [] => yaml_setitem d k v
  | k1 :: ks' =>
      let* d1 := yaml_getitem d k1 in
      let* d1' := yaml_set_path d1 ks' k v in
      yaml_setitem d k1 d1'
  end.

Definition as_int (v : Yaml) : Result Z :=
  match v with
  | YInt n => Ok n
  | YBool b => Ok (if b then 1 else 0)
  | _ => Raise TypeError
  end.

Definition as_date (v : Yaml) : Result (Date L) :=
  match v with
  | YDate d => Ok d
  | _ => Raise TypeError
  end.

Record World : Type := mk_world {
  files : gmap string (File L);
  stdout : list string
}.

Definition print (line : string) : M World unit :=
  modify (fun w => mk_world (files w) (stdout w ++ [line])).

(** [open(path, 'r')] followed by [yaml.load]. *)
Definition read_yaml (path : string) : M World Yaml :=
  do* f := gets (fun w => files w !! path) in
  match f with
  | None => raise FileNotFoundError
  | Some c => lift (yaml_load L c)
  end.

(** [open(path, 'w')] followed by [yaml.dump]. *)
Definition write_yaml (path : string) (d : Yaml) : M World unit :=
  modify (fun w => mk_world (<[path := yaml_dump L d]> (files w)) (stdout w)).

Definition leg_path : list string :=
  ["base.context"; "experiment"; "schedule"; "leg"].

Definition legfile_of (expname : string) : string :=
  path_join (path_join RUNDIR expname) "leginfo.yml".

(** The part of the script that updates the leginfo, rolling back to the
    required leg; it returns [newdate] and [orgdate], which the rest of
    the script reads. *)
Definition update_leginfo (expname leg : string)
    : M World (Date L * Date L) :=
  let legfile := legfile_of expname in
  do* leginfo := read_yaml legfile in
  (* get some time information *)
  do* info := lift (yaml_get_path leginfo leg_path) in
  do* deltayear := lift (
    let* n := int L leg in
    let* num := yaml_getitem info "num" in
    let* num := as_int num in
    Ok (n - num)) in
  do* newdate := lift (
    let* s := yaml_getitem info "start" in
    let* s := as_date s in
    add_years L s deltayear) in
  do* orgdate := lift (
    let* s := yaml_getitem info "start" in
    as_date s) in
  (* modify the file only if it is necessary *)
  do* n := lift (int L leg) in
  do* num := lift (let* num := yaml_getitem info "num" in as_int num) in
  do* _ :=
    if n <? num then
      do* n' := lift (int L leg) in
      do* leginfo := lift (yaml_set_path leginfo leg_path "num" (YInt n')) in
      do* leginfo := lift (yaml_set_path leginfo leg_path "start" (YDate newdate)) in
      do* _ := print ("Updating the leginfo to leg number " +:+ leg) in
      write_yaml legfile leginfo
    else
      do* n' := lift (int L leg) in
      do* num' := lift (let* num := yaml_getitem info "num" in as_int num) in
      if n' =? num' then print "Nothing to do on the leginfo.yaml"
      else raise ValueError in
  ret (newdate, orgdate).

End Model.

End Rollback.

(** ** The roll-back tool: the restarts restored and the output removed *)

Module RollbackRestore.

Import Rollback.

(** [sep.join(l)]. *)
Fixpoint join (sep : string) (l : list string) : string :=
  match l with
  | [] => EmptyString
  | [x] => x
  | x :: l' => x +:+ sep +:+ join sep l'
  end.

Fixpoint has_char (c : Ascii.ascii) (s : string) : bool :=
  match s with
  | EmptyString => false
  | String a s' => Ascii.eqb a c || has_char c s'
  end.

(** [os.path.basename(p)] (posixpath): what follows the last slash. *)
Fixpoint basename (p : string) : string :=
  match p with
  | EmptyString => EmptyString
  | String a p' =>
      if has_char "/" p' then basename p'
      else if Ascii.eqb a "/" then p' else p
  end.

(** [os.path.join(dirs['exp'], basefile)]. *)
Definition targetfile (exp basefile : string) : string :=
  path_join exp basefile.

(** [os.path.join(dirs['exp'], '_'.join(basefile.split('_')[2:]))]. *)
Definition newfile (exp basefile : string) : string :=
  path_join exp (join "_" (drop 2 (split "_" basefile))).

Inductive Action : Type :=
  | Copy (src dst : string)
  | Symlink (src dst : string).

(** What the script does with a file of the restart folder whose target
    is not yet a file of the experiment folder. *)
Definition restore_action (exp file : string) : option Action :=
  let basefile := basename file in
  if bool_decide (basefile ∈ ["rstas.nc"; "rstos.nc"; "rcf"]) then
    (* copy rcf and oasis file *)
    Some (Copy file (targetfile exp basefile))
  else if contains "srf" basefile then
    (* link oifs files *)
    Some (Symlink file (targetfile exp basefile))
  else if contains "restart" basefile then
    (* link and rename nemo files *)
    Some (Symlink file (newfile exp basefile))
  else None.

(** [list(range(newdate.year, orgdate.year))]: the years whose output is
    removed. *)
Definition output_years (L : Lib) (dates : Date L * Date L) : list Z :=
  range2 (date_year L dates.1) (date_year L dates.2).

End RollbackRestore.

(** ** The descriptor generator ([paleotest/descriptor_generator.py]) *)

Module Descriptor.

(** Grid names are strings of ASCII characters: for those a character is
    a byte, and [upper] and [s[1:]] are as below. *)
Definition is_ascii (a : Ascii.ascii) : bool := (nat_of_ascii a <? 128)%nat.

Definition is_digit (a : Ascii.ascii) : bool :=
  let n := nat_of_ascii a in (48 <=? n)%nat && (n <=? 57)%nat.

(** [re.sub] of a class of single characters by the empty string keeps
    the characters outside the class. *)
Fixpoint keep (p : Ascii.ascii -> bool) (s : string) : string :=
  match s with
  | EmptyString => EmptyString
  | String a s' => if p a then String a (keep p s') else keep p s'
  end.

Definition upper_char (a : Ascii.ascii) : Ascii.ascii :=
  let n := nat_of_ascii a in
  if (97 <=? n)%nat && (n <=? 122)%nat then ascii_of_nat (n - 32) else a.

(** [s.upper()]. *)
Fixpoint upper (s : string) : string :=
  match s with
  | EmptyString => EmptyString
  | String a s' => String (upper_char a) (upper s')
  end.

(** [s[1:]]. *)
Definition tail (s : string) : string :=
  match s with
  | EmptyString => EmptyString
  | String _ s' => s'
  end.

Definition ecmwf_name (kind : string) : option string :=
  if String.eqb kind "L" then Some "l_2"
  else if String.eqb kind "CO" then Some "_4"
  else if String.eqb kind "Q" then Some "_2"
  else None.

Definition get_info_grid (gridname : string) : Result (string * string) :=
  let kind := upper (tail (keep (fun a => negb (is_digit a)) gridname)) in
  let spectral := keep is_digit gridname in
  let* name := getitem (ecmwf_name kind) in
  Ok (spectral, name).

End Descriptor.

(** ** Small libraries on which the models run *)

Module PostReaderToy.

Import Vardict PostReader.

Definition toy_dirs (expname : string) : Dirs :=
  mk_dirs ("/archive/" +:+ expname) ("/scratch/" +:+ expname) "/osprey".

Definition toy_raw : Dataset Z :=
  mk_ds (<["thetao" := mk_da 5 ["time"] ∅ (attrs2 "units" "degC" "long_name" "Temperature")]>
          (<["time" := mk_da 1990 ["time"] ∅ ∅]> ∅)) ∅.

Definition toy : Lib :=
  {| Arr := Z; File := Dataset Z;
     folders := toy_dirs;
     elements := fun _ => Ok ∅;
     reader_nemo := fun _ _ _ => Ok toy_raw;
     yaml_load := fun _ => Ok (mk_config (Some (mk_meanfield "REF0" 1950 1959)));
     cost := fun x _ _ => Ok x;
     spacemean := fun _ _ _ _ => Ok 7;
     timemean := fun _ _ => Ok 8;
     get_decimal_year := fun a => Ok a;
     flatten := fun a => a;
     weighted_mean := fun _ _ _ => Ok 9;
     netcdf_encode := fun d => d;
     netcdf_decode := fun f => Ok f |}.

Definition w0 : World toy := mk_world toy ∅ [].

End PostReaderToy.

Module EofToy.

Import Eof.

Definition obs : Info := mk_obs "3D" "T".

Definition isel (sel : list (string * Z)) (d : list Z) : Result (list Z) :=
  match sel with
  | [(name, i)] =>
      if String.eqb name "time" then let* x := list_getitem d i in Ok [x] else Ok d
  | _ => Ok d
  end.

Definition float (s : string) : Result Z :=
  if String.eqb s "6" then Ok 6
  else if String.eqb s "3" then Ok 3
  else if String.eqb s "1" then Ok 1
  else Raise ValueError.

Definition time_of (v : TimeVal Z Z) : Z :=
  match v with TDate d => d | TNum x => x end.

Definition lib : Lib :=
  {| DS := list Z; File := list Z; Date := Z; Num := Z;
     folders := fun e => PostReader.mk_dirs ("/archive/" +:+ e) ("/scratch/" +:+ e) "/osprey";
     observables := fun _ => Ok {[ "thetao" := obs ]};
     get_forecast_year := fun y leap => y + leap;
     get_decimal_year := fun ds => Ok ds;
     DatetimeGregorian := fun y _ _ _ _ _ => Ok y;
     DataArray := fun vs _ _ _ => map time_of vs;
     netcdf_decode := fun f => Ok f;
     netcdf_encode := fun d => d;
     rename_dims := fun _ d => Ok d;
     rename := fun _ d => Ok d;
     drop_vars := fun _ d => Ok d;
     drop_vars_ignore := fun _ d => d;
     Eof.isel := isel;
     ds_lookup := fun d _ => Some d;
     time_values := fun d => Ok d;
     setitem_values := fun d _ _ => Ok d;
     setitem := fun d _ _ => Ok d;
     mul_int := fun d k => Ok (map (Z.mul k) d);
     mul := fun a b => Ok (zip_with Z.mul a b);
     iadd := fun a b => Ok (zip_with Z.add a b);
     polyfit := fun d _ _ _ => Ok d;
     polyval := fun _ c => Ok c;
     values2 := fun _ => Ok (0, 0);
     transpose := fun d _ => Ok d;
     check_output := fun _ => Ok "0 : Mean : a : 6|1 : Mean : a : 3|2 : Mean : a : 1";
     splitlines := split "|";
     strip := fun s => match s with String " " s' => s' | _ => s end;
     Eof.float := float;
     float_0_9 := 90;
     np_sum := fun ws => foldr Z.add 0 ws;
     nadd := Z.add;
     ndiv := fun a b => 100 * a / b;
     nlt := Z.ltb |}.

Definition series (i : nat) : list Z := [Z.of_nat i + 2].

Definition world : World lib :=
  mk_world lib
    (<["/scratch/X1/012/thetao_pattern.nc" := [10; 20; 30]]>
     (<["/scratch/X1/012/thetao_series_00000.nc" := series 0]>
      (<["/scratch/X1/012/thetao_series_00001.nc" := series 1]>
       (<["/scratch/X1/012/thetao_series_00002.nc" := series 2]>
        (<["/scratch/X1/012/thetao_eof.nc" := [7]]> ∅))))) [].

End EofToy.

Module RestartToy.
Import RestartReader.

Definition covered (a b : Z) (s : list Z) : bool :=
  forallb (fun leg => bool_decide (leg ∈ s)) (range2 a (b + 1)).

Definition lib : Lib :=
  {| FS := list Z; Data := list Z;
     get_leg := fun year => year - 1990 + 2;
     reader_rebuilt := fun _ a b s =>
       if covered a b s then (Ok (range2 a (b + 1)), s) else (Raise FileNotFoundError, s);
     rebuilder := fun _ leg s => (Ok tt, leg :: s) |}.

Definition world : World lib := mk_world lib [2] [].

End RestartToy.

Module RollbackToy.
Import Rollback.

Definition int (s : string) : Result Z :=
  if String.eqb s "3" then Ok 3
  else if String.eqb s "5" then Ok 5
  else if String.eqb s "7" then Ok 7
  else Raise ValueError.

Definition lib : Lib :=
  {| Date := Z; File := Yaml Z;
     Rollback.int := int;
     yaml_load := fun f => Ok f;
     yaml_dump := fun d => d;
     add_years := fun d n => Ok (d + n);
     date_year := fun d => d |}.

Definition leginfo (num start : Z) : Yaml Z :=
  YMap [("base.context",
    YMap [("experiment",
      YMap [("schedule",
        YMap [("leg", YMap [("num", YInt num); ("start", YDate start)])])])])].

Definition world : World lib :=
  mk_world lib {[ "/ec/res4/scratch/ccpd/ece4/X1/leginfo.yml" := leginfo 5 1994 ]} [].

End RollbackToy.

(** * Properties *)

(** ** Loops and ranges *)

Module LoopFacts.

Section LoopFacts.

Context {W : Type}.

Lemma for_fold_app {A S} (xs ys : list A) (body : A -> S -> M W S) (acc : S) (w : W) :
  for_fold (xs ++ ys) body acc w =
  bind (for_fold xs body acc) (fun a => for_fold ys body a) w.
Proof.
  revert acc w. induction xs as [|x xs IH]; intros acc w; simpl.
  - reflexivity.
  - unfold bind. destruct (body x acc w) as [[a|e] w1]; [|reflexivity].
    rewrite IH. reflexivity.
Qed.

Lemma for_each_app {A} (xs ys : list A) (body : A -> M W unit) (w : W) :
  for_each (xs ++ ys) body w =
  bind (for_each xs body) (fun _ => for_each ys body) w.
Proof.
  revert w. induction xs as [|x xs IH]; intros w; simpl.
  - reflexivity.
  - unfold bind. destruct (body x w) as [[a|e] w1]; [|reflexivity].
    rewrite IH. reflexivity.
Qed.

End LoopFacts.

Lemma range_nat (n : Z) :
  range n = map Z.of_nat (seq 0 (Z.to_nat n)).
Proof.
  unfold range, range2. rewrite Z.sub_0_r. apply map_ext. intros k. lia.
Qed.

Lemma range2_nat (a b : Z) :
  range2 a b = map (fun k => a + Z.of_nat k) (seq 0 (Z.to_nat (b - a))).
Proof. reflexivity. Qed.

(** The pure iteration that a loop over [range(n)] computes. *)
Fixpoint iterate {A} (step : nat -> A -> Result A) (n : nat) (a : A) : Result A :=
  match n with
  | O => Ok a
  | S k => let* b := iterate step k a in step k b
  end.

Lemma elem_of_range2 (a b x : Z) : x ∈ range2 a b <-> a <= x < b.
Proof.
  unfold range2. rewrite list_elem_of_fmap. split.
  - intros (k & -> & Hk). apply elem_of_seq in Hk. lia.
  - intros H. exists (Z.to_nat (x - a)). split; [lia|]. apply elem_of_seq. lia.
Qed.

Lemma NoDup_range2 (a b : Z) : NoDup (range2 a b).
Proof.
  unfold range2. apply NoDup_fmap_2; [|apply NoDup_seq].
  intros x y H. lia.
Qed.

End LoopFacts.

(** ** The cached post-reader *)

Module PostReaderFacts.

Import Vardict PostReader PostReaderToy.

#[global] Arguments vardict : simpl never.
#[global] Arguments vardict_nemo : simpl never.

Ltac munfold :=
  unfold reader_averaged, open_dataset, to_netcdf, remove_existing_file, makedirs, emit,
    bind, lift, ret, raise, modify, gets, except_FileNotFoundError in *.

Section Facts.

Variable L : Lib.

Lemma split_varlabel_fst varlabel varname subregion :
  split_varlabel varlabel = (varname, subregion) -> varname = (split_varlabel varlabel).1.
Proof. intros ->. reflexivity. Qed.

(** A run that finds the cached product. *)
Lemma cache_hit_run expname sy ey varlabel diagname metrics (w : World L) c data df ndim :
  elements L expname = Ok df ->
  vardict_nemo (split_varlabel varlabel).1 = Ok ndim ->
  files L w !! product_path L expname sy ey varlabel diagname metrics = Some c ->
  netcdf_decode L c = Ok data ->
  postreader_averaged L expname sy ey varlabel diagname false metrics w =
    (Ok data,
     mk_world L (files L w)
       (trace L w ++ [EvOpenDataset L (product_path L expname sy ey varlabel diagname metrics)])).
Proof.
  intros He Hv Hf Hd. unfold postreader_averaged, product_path in *.
  destruct (split_varlabel varlabel) as [varname subregion]. simpl in Hv.
  munfold. rewrite He, Hv. simpl. rewrite Hf, Hd. reflexivity.
Qed.

(** What a successful run leaves behind when [replace] is false. *)
Lemma success_leaves_product expname sy ey varlabel diagname metrics (w w1 : World L) d1 :
  postreader_averaged L expname sy ey varlabel diagname false metrics w = (Ok d1, w1) ->
  (exists df, elements L expname = Ok df) /\
  (exists ndim, vardict_nemo (split_varlabel varlabel).1 = Ok ndim) /\
  exists c, files L w1 !! product_path L expname sy ey varlabel diagname metrics = Some c /\
            netcdf_decode L c = Ok d1.
Proof.
  unfold postreader_averaged, product_path.
  destruct (split_varlabel varlabel) as [varname subregion]. simpl.
  munfold.
  destruct (elements L expname) as [df|] eqn:He; [|discriminate].
  destruct (vardict_nemo varname) as [ndim|] eqn:Hv; [|discriminate].
  simpl.
  set (path := path_join _ _).
  intros H. split; [eauto|]. split; [eauto|]. revert H.
  destruct (files L w !! path) as [c|] eqn:Hf; simpl.
  - destruct (netcdf_decode L c) as [d|e] eqn:Hd; simpl.
    + intros [= <- <-]. simpl. eauto.
    + destruct e; simpl; try discriminate.
      destruct (reader_nemo L expname sy ey) as [xdata|]; [|discriminate].
      match goal with |- context [let (_, _) := ?X in _] => destruct X as [r w'] end.
      destruct r as [xdata'|]; [|discriminate].
      destruct (averaging L expname xdata' varlabel diagname) as [ds|]; [|discriminate].
      rewrite lookup_insert_eq.
      destruct (netcdf_decode L (netcdf_encode L ds)) eqn:Hr; [|discriminate].
      intros [= <- <-]. simpl. rewrite lookup_insert_eq. eauto.
  - destruct (reader_nemo L expname sy ey) as [xdata|]; [|discriminate].
    match goal with |- context [let (_, _) := ?X in _] => destruct X as [r w'] end.
    destruct r as [xdata'|]; [|discriminate].
    destruct (averaging L expname xdata' varlabel diagname) as [ds|]; [|discriminate].
    rewrite lookup_insert_eq.
    destruct (netcdf_decode L (netcdf_encode L ds)) eqn:Hr; [|discriminate].
    intros [= <- <-]. simpl. rewrite lookup_insert_eq. eauto.
Qed.


(** The events that follow the metric combination: they concern the
    requested product only. *)
Definition after_cost (path : string) (e : Event L) : Prop :=
  match e with
  | EvAveraging _ _ _ _ _ | EvMakedirs _ _ | EvRemove _ _ => True
  | EvToNetcdf _ f _ | EvOpenDataset _ f => f = path
  | EvReaderNemo _ _ _ _ | EvYamlLoad _ _ | EvCost _ _ _ _ => False
  end.

Definition config_path (expname : string) : string :=
  path_join (osprey (folders L expname)) "meanfield.yaml".

Definition reference_path (mf : Meanfield) (varlabel : string) : string :=
  product_path L (mf_expname mf) (mf_startyear mf) (mf_endyear mf) varlabel "field" "base".

(** The trace of a recomputation up to the opening of the reference. *)
Definition recompute_prefix (expname : string) (sy ey : Z) (varlabel diagname : string)
    (replace : bool) (metrics : string) (mf : Meanfield) : list (Event L) :=
  (if replace then [] else [EvOpenDataset L (product_path L expname sy ey varlabel diagname metrics)]) ++
  [EvReaderNemo L expname sy ey; EvYamlLoad L (config_path expname);
   EvOpenDataset L (reference_path mf varlabel)].

Section Recompute.

Variables (expname : string) (sy ey : Z) (varlabel diagname : string)
          (replace : bool) (metrics : string).
Variables (w : World L) (df : gmap string (Arr L)) (ndim : PyVal)
          (xdata : Dataset (Arr L)) (config : Config) (mf : Meanfield).

Hypothesis Helements : elements L expname = Ok df.
Hypothesis Hvardict : vardict_nemo (split_varlabel varlabel).1 = Ok ndim.
Hypothesis Hmiss :
  replace = true \/
  files L w !! product_path L expname sy ey varlabel diagname metrics = None.
Hypothesis Hraw : reader_nemo L expname sy ey = Ok xdata.
Hypothesis Hmetrics : metrics <> "base".
Hypothesis Hyaml : yaml_load L (config_path expname) = Ok config.
Hypothesis Hmeanfield : meanfield config = Some mf.

Lemma recompute_reference_missing :
  files L w !! reference_path mf varlabel = None ->
  postreader_averaged L expname sy ey varlabel diagname replace metrics w =
    (Raise FileNotFoundError,
     mk_world L (files L w)
       (trace L w ++ recompute_prefix expname sy ey varlabel diagname replace metrics mf)).
Proof.
  intros Href. unfold postreader_averaged, recompute_prefix, reference_path, config_path, product_path in *.
  destruct (split_varlabel varlabel) as [varname subregion]. simpl in Hvardict.
  apply String.eqb_neq in Hmetrics.
  munfold. rewrite Helements, Hvardict. simpl.
  destruct Hmiss as [-> | Hnone].
  - simpl. rewrite Hraw, Hmetrics. simpl. rewrite Hyaml. unfold meanfield_locals. rewrite Hmeanfield.
    simpl. rewrite Href. simpl. rewrite <- !app_assoc. reflexivity.
  - destruct replace; simpl.
    + rewrite Hraw, Hmetrics. simpl. rewrite Hyaml. unfold meanfield_locals. rewrite Hmeanfield.
      simpl. rewrite Href. simpl. rewrite <- !app_assoc. reflexivity.
    + rewrite Hnone. simpl. rewrite Hraw, Hmetrics. simpl. rewrite Hyaml. unfold meanfield_locals.
      rewrite Hmeanfield. simpl. rewrite Href. simpl. rewrite <- !app_assoc. reflexivity.
Qed.

Lemma recompute_reference_loaded c mdata :
  files L w !! reference_path mf varlabel = Some c ->
  netcdf_decode L c = Ok mdata ->
  exists r w' rest,
    postreader_averaged L expname sy ey varlabel diagname replace metrics w = (r, w') /\
    trace L w' =
      trace L w ++ recompute_prefix expname sy ey varlabel diagname replace metrics mf ++
      EvCost L xdata mdata metrics :: rest /\
    Forall (after_cost (product_path L expname sy ey varlabel diagname metrics)) rest.
Proof.
  intros Href Hdec.
  unfold postreader_averaged, recompute_prefix, reference_path, config_path, product_path in *.
  destruct (split_varlabel varlabel) as [varname subregion]. simpl in Hvardict.
  apply String.eqb_neq in Hmetrics.
  munfold. rewrite Helements, Hvardict. simpl.
  set (path := path_join (perm (folders L expname)) _) in *.
  destruct replace; simpl.
  - rewrite Hraw, Hmetrics. simpl. rewrite Hyaml. unfold meanfield_locals. rewrite Hmeanfield.
    simpl. rewrite Href. simpl. rewrite Hdec.
    destruct (cost L xdata mdata metrics) as [x'|e] eqn:Hc.
    + destruct (averaging L expname x' varlabel diagname) as [ds|e'].
      * simpl. rewrite lookup_insert_eq.
        eexists _, _, _. split; [reflexivity|]. simpl. split.
        { rewrite <- !app_assoc. simpl. reflexivity. }
        repeat constructor.
      * eexists _, _, _. split; [reflexivity|]. simpl. split.
        { rewrite <- !app_assoc. simpl. reflexivity. }
        repeat constructor.
    + eexists _, _, []. split; [reflexivity|]. simpl. split.
      { rewrite <- !app_assoc. simpl. reflexivity. }
      constructor.
  - destruct Hmiss as [?|Hnone]; [discriminate|]. rewrite Hnone. simpl.
    rewrite Hraw, Hmetrics. simpl. rewrite Hyaml. unfold meanfield_locals. rewrite Hmeanfield.
    simpl. rewrite Href. simpl. rewrite Hdec.
    destruct (cost L xdata mdata metrics) as [x'|e] eqn:Hc.
    + destruct (averaging L expname x' varlabel diagname) as [ds|e'].
      * simpl. rewrite lookup_insert_eq.
        eexists _, _, _. split; [reflexivity|]. simpl. split.
        { rewrite <- !app_assoc. simpl. reflexivity. }
        repeat constructor.
      * eexists _, _, _. split; [reflexivity|]. simpl. split.
        { rewrite <- !app_assoc. simpl. reflexivity. }
        repeat constructor.
    + eexists _, _, []. split; [reflexivity|]. simpl. split.
      { rewrite <- !app_assoc. simpl. reflexivity. }
      constructor.
Qed.

End Recompute.


Definition is_cost (e : Event L) : bool :=
  match e with EvCost _ _ _ _ => true | _ => false end.

Lemma after_cost_not_cost path rest :
  Forall (after_cost path) rest -> forallb (fun e => negb (is_cost e)) rest = true.
Proof.
  induction 1 as [|e rest He _ IH]; [reflexivity|].
  simpl. rewrite IH. destruct e; simpl in *; try reflexivity. contradiction.
Qed.

(** Whatever [ndim] compares equal to, a catalogue entry is not the
    string ['2D'] or ['3D']. *)
Lemma vardict_nemo_is_dict varname ndim :
  vardict_nemo varname = Ok ndim -> forall s, py_eq_str ndim s = false.
Proof.
  unfold vardict_nemo.
  destruct (vardict "nemo") as [d|]; cbn [rbind]; [|discriminate].
  destruct (d !! varname); cbn [rbind getitem]; [|discriminate].
  intros [= <-] s. reflexivity.
Qed.

Lemma averaging_ok_only_timeseries expname data varlabel diagname ds :
  averaging L expname data varlabel diagname = Ok ds -> diagname = "timeseries".
Proof.
  unfold averaging. destruct (split_varlabel varlabel) as [varname subregion].
  destruct (elements L expname) as [df|]; cbn [rbind]; [|discriminate].
  destruct (vardict_nemo varname) as [ndim|] eqn:Hv; cbn [rbind]; [|discriminate].
  rewrite !(vardict_nemo_is_dict _ _ Hv), !andb_false_r.
  destruct (String.eqb diagname "timeseries") eqn:Hts.
  - intros _. by apply String.eqb_eq.
  - cbn [rbind]. destruct (String.eqb diagname "map"); cbn [rbind]; [|discriminate].
    destruct (horizontal L data "lat" "latitude"); cbn [rbind]; [|discriminate].
    destruct (horizontal L data "lon" "longitude"); cbn [rbind]; discriminate.
Qed.

End Facts.

(** C1 (as amended).  When [replace] is false, the variable name is a key
    of the catalogue, [elements(expname)] returns and the cache file
    exists and loads, [postreader_averaged] returns the dataset loaded from
    that file; the only effect is the opening of that file: no raw read,
    no metric combination, no averaging and no write. *)
Theorem cache_hit_short_circuits (L : Lib) expname sy ey varlabel diagname metrics
    (w : World L) c data df ndim :
  elements L expname = Ok df ->
  vardict_nemo (split_varlabel varlabel).1 = Ok ndim ->
  files L w !! product_path L expname sy ey varlabel diagname metrics = Some c ->
  netcdf_decode L c = Ok data ->
  postreader_averaged L expname sy ey varlabel diagname false metrics w =
    (Ok data,
     mk_world L (files L w)
       (trace L w ++ [EvOpenDataset L (product_path L expname sy ey varlabel diagname metrics)])).
Proof. apply cache_hit_run. Qed.

(** C2.  With [replace=False], a second call with the arguments of a
    call that returned gives the same product: after the first call the
    cache file is there and loads to the product returned, and the second
    call returns exactly that, leaving the files as they are. *)
Theorem postreader_twice_identical (L : Lib) expname sy ey varlabel diagname metrics
    (w w1 : World L) d1 :
  postreader_averaged L expname sy ey varlabel diagname false metrics w = (Ok d1, w1) ->
  (exists c,
     files L w1 !! product_path L expname sy ey varlabel diagname metrics = Some c /\
     netcdf_decode L c = Ok d1) /\
  postreader_averaged L expname sy ey varlabel diagname false metrics w1 =
    (Ok d1,
     mk_world L (files L w1)
       (trace L w1 ++ [EvOpenDataset L (product_path L expname sy ey varlabel diagname metrics)])).
Proof.
  intros H. apply success_leaves_product in H as ([df He] & [ndim Hv] & c & Hf & Hd).
  split; [eauto|]. by eapply cache_hit_run.
Qed.

(** C3.  For a variable whose catalogue dimensionality is ['2D'],
    [averaging] with diagname ['profile'] or ['hovmoller'] raises an
    exception (the read of the unbound local [ds], when
    [elements(expname)] returns): it never returns a product. *)
Theorem averaging_rejects_profile_of_2D (L : Lib) expname data varlabel diagname info :
  vardict_nemo (split_varlabel varlabel).1 = Ok (PyDict info) ->
  Vardict.dim info = "2D" ->
  diagname = "profile" \/ diagname = "hovmoller" ->
  exists e,
    averaging L expname data varlabel diagname = Raise e /\
    (is_ok (elements L expname) = true -> e = UnboundLocalError).
Proof.
  intros Hv _ Hd. unfold averaging.
  destruct (split_varlabel varlabel) as [varname subregion]. simpl in Hv.
  destruct (elements L expname) as [df|e]; cbn [rbind is_ok].
  - rewrite Hv. cbn [rbind py_eq_str]. exists UnboundLocalError.
    destruct Hd as [-> | ->]; cbn; auto.
  - exists e. split; [reflexivity|discriminate].
Qed.

(** C4.  On the recompute path with [metrics != 'base'], the reference
    product named by [meanfield.yaml] is opened before the metric
    combination; when its file is missing the call ends in
    [FileNotFoundError], having read the raw data of the requested
    experiment only and written nothing; when it loads, the events after
    the combination concern the requested product only: the reference is
    never computed. *)
Theorem reference_loaded_or_fatal (L : Lib) expname sy ey varlabel diagname replace metrics
    (w : World L) df ndim xdata config mf :
  elements L expname = Ok df ->
  vardict_nemo (split_varlabel varlabel).1 = Ok ndim ->
  replace = true \/
    files L w !! product_path L expname sy ey varlabel diagname metrics = None ->
  reader_nemo L expname sy ey = Ok xdata ->
  metrics <> "base" ->
  yaml_load L (config_path L expname) = Ok config ->
  meanfield config = Some mf ->
  let prefix := recompute_prefix L expname sy ey varlabel diagname replace metrics mf in
  (files L w !! reference_path L mf varlabel = None ->
   postreader_averaged L expname sy ey varlabel diagname replace metrics w =
     (Raise FileNotFoundError, mk_world L (files L w) (trace L w ++ prefix))) /\
  (forall c mdata,
   files L w !! reference_path L mf varlabel = Some c ->
   netcdf_decode L c = Ok mdata ->
   exists r w' rest,
     postreader_averaged L expname sy ey varlabel diagname replace metrics w = (r, w') /\
     trace L w' = trace L w ++ prefix ++ EvCost L xdata mdata metrics :: rest /\
     Forall (after_cost L (product_path L expname sy ey varlabel diagname metrics)) rest).
Proof.
  intros He Hv Hmiss Hraw Hm Hy Hmf prefix. split.
  - intros Href. by eapply recompute_reference_missing.
  - intros c mdata Href Hdec. by eapply recompute_reference_loaded.
Qed.

(** C8.  Whatever [diagname] and [metrics != 'base'] the caller asks
    for, the dataset that [cost] combines with the raw data is the one
    loaded from the ['field'], ['base'] product of the experiment and
    years of [meanfield.yaml], for the caller's [varlabel]; no other
    combination takes place. *)
Theorem reference_is_field_base (L : Lib) expname sy ey varlabel diagname replace metrics
    (w : World L) df ndim xdata config mf c mdata :
  elements L expname = Ok df ->
  vardict_nemo (split_varlabel varlabel).1 = Ok ndim ->
  replace = true \/
    files L w !! product_path L expname sy ey varlabel diagname metrics = None ->
  reader_nemo L expname sy ey = Ok xdata ->
  metrics <> "base" ->
  yaml_load L (config_path L expname) = Ok config ->
  meanfield config = Some mf ->
  files L w !! product_path L (mf_expname mf) (mf_startyear mf) (mf_endyear mf)
                 varlabel "field" "base" = Some c ->
  netcdf_decode L c = Ok mdata ->
  exists r w' before rest,
    postreader_averaged L expname sy ey varlabel diagname replace metrics w = (r, w') /\
    trace L w' =
      trace L w ++ before ++
      [EvOpenDataset L (product_path L (mf_expname mf) (mf_startyear mf) (mf_endyear mf)
                          varlabel "field" "base");
       EvCost L xdata mdata metrics] ++ rest /\
    forallb (fun e => negb (is_cost L e)) (before ++ rest) = true.
Proof.
  intros He Hv Hmiss Hraw Hm Hy Hmf Href Hdec.
  destruct (recompute_reference_loaded L expname sy ey varlabel diagname replace metrics
              w df ndim xdata config mf He Hv Hmiss Hraw Hm Hy Hmf c mdata Href Hdec)
    as (r & w' & rest & Hrun & Htr & Hrest).
  exists r, w',
    ((if replace then []
      else [EvOpenDataset L (product_path L expname sy ey varlabel diagname metrics)]) ++
     [EvReaderNemo L expname sy ey; EvYamlLoad L (config_path L expname)]), rest.
  split; [exact Hrun|]. split.
  - rewrite Htr. unfold recompute_prefix, reference_path.
    rewrite <- !app_assoc. reflexivity.
  - rewrite forallb_app, (after_cost_not_cost L _ _ Hrest).
    destruct replace; reflexivity.
Qed.



Definition err {A} (r : Result A) : option PyErr := match r with Ok _ => None | Raise e => Some e end.
Definition ev_tag (e : Event toy) : string := match e with
 | EvOpenDataset _ f => "open " +:+ f | EvReaderNemo _ _ _ _ => "raw" | EvYamlLoad _ f => "yaml " +:+ f | EvCost _ _ _ m => "cost " +:+ m
 | EvAveraging _ _ _ _ d => "avg " +:+ d | EvMakedirs _ p => "mkdir " +:+ p | EvRemove _ f => "rm " +:+ f | EvToNetcdf _ f _ => "write " +:+ f end.
Definition run (vl dn : string) (rep : bool) (m : string) w := let '(r, w') := postreader_averaged toy "X1" 1990 1999 vl dn rep m w in (err r, map ev_tag (trace _ w')).

Definition thetao_info : VarInfo := mk_info "3D" (GridTag "T") "degC" "Temperature" [].
Definition tos_info : VarInfo := mk_info "2D" (GridTag "T") "degC" "Sea-surface temperature" [].
Definition toy_config : Config := mk_config (Some (mk_meanfield "REF0" 1950 1959)).

Definition w_hit : World toy :=
  mk_world toy {[ "/archive/X1/timeseries_thetao_base_1990-1999.nc" := toy_raw ]} [].
Definition w_foo : World toy :=
  mk_world toy {[ "/archive/X1/field_foo_base_1990-1999.nc" := toy_raw ]} [].
Definition w_ref : World toy :=
  mk_world toy {[ "/archive/REF0/field_thetao_base_1950-1959.nc" := toy_raw ]} [].

Lemma cache_hit_short_circuits_witness :
  postreader_averaged toy "X1" 1990 1999 "thetao" "timeseries" false "base" w_hit =
    (Ok toy_raw,
     mk_world toy (files toy w_hit)
       (trace toy w_hit ++
        [EvOpenDataset toy (product_path toy "X1" 1990 1999 "thetao" "timeseries" "base")])).
Proof.
  apply (cache_hit_short_circuits toy "X1" 1990 1999 "thetao" "timeseries" "base"
           w_hit toy_raw toy_raw ∅ (PyDict thetao_info)); vm_compute; reflexivity.
Defined.

(** The claim C1 as stated fails: the cache file is there and loads, yet
    the call raises [KeyError], because ['foo'] is not in the catalogue,
    which is consulted before the cache. *)
Lemma cache_hit_unknown_variable :
  files toy w_foo !! product_path toy "X1" 1990 1999 "foo" "field" "base" = Some toy_raw /\
  netcdf_decode toy toy_raw = Ok toy_raw /\
  postreader_averaged toy "X1" 1990 1999 "foo" "field" false "base" w_foo =
    (Raise KeyError, w_foo).
Proof. vm_compute. repeat split; reflexivity. Qed.

Lemma postreader_twice_identical_witness :
  exists d1 w1,
    postreader_averaged toy "X1" 1990 1999 "thetao" "timeseries" false "base" w0 = (Ok d1, w1) /\
    postreader_averaged toy "X1" 1990 1999 "thetao" "timeseries" false "base" w1 =
      (Ok d1,
       mk_world toy (files toy w1)
         (trace toy w1 ++
          [EvOpenDataset toy (product_path toy "X1" 1990 1999 "thetao" "timeseries" "base")])).
Proof.
  destruct (postreader_averaged toy "X1" 1990 1999 "thetao" "timeseries" false "base" w0)
    as [[d1|e] w1] eqn:H.
  - exists d1, w1. split; [reflexivity|].
    exact (proj2 (postreader_twice_identical toy "X1" 1990 1999 "thetao" "timeseries" "base"
                    w0 w1 d1 H)).
  - vm_compute in H. discriminate H.
Defined.

Lemma averaging_rejects_profile_of_2D_witness :
  exists e,
    averaging toy "X1" toy_raw "tos" "profile" = Raise e /\
    (is_ok (elements toy "X1") = true -> e = UnboundLocalError).
Proof.
  apply (averaging_rejects_profile_of_2D toy "X1" toy_raw "tos" "profile" tos_info);
    [vm_compute; reflexivity | reflexivity | left; reflexivity].
Defined.

Lemma reference_loaded_or_fatal_witness :
  postreader_averaged toy "X1" 1990 1999 "thetao" "timeseries" true "diff" w0 =
    (Raise FileNotFoundError,
     mk_world toy (files toy w0)
       (trace toy w0 ++
        recompute_prefix toy "X1" 1990 1999 "thetao" "timeseries" true "diff"
          (mk_meanfield "REF0" 1950 1959))).
Proof.
  apply (reference_loaded_or_fatal toy "X1" 1990 1999 "thetao" "timeseries" true "diff"
           w0 ∅ (PyDict thetao_info) toy_raw toy_config (mk_meanfield "REF0" 1950 1959));
    try (vm_compute; reflexivity).
  - left; reflexivity.
  - intros H; discriminate H.
Defined.

Lemma reference_is_field_base_witness :
  exists r w' before rest,
    postreader_averaged toy "X1" 1990 1999 "thetao" "timeseries" true "diff" w_ref = (r, w') /\
    trace toy w' =
      trace toy w_ref ++ before ++
      [EvOpenDataset toy "/archive/REF0/field_thetao_base_1950-1959.nc";
       EvCost toy toy_raw toy_raw "diff"] ++ rest /\
    forallb (fun e => negb (is_cost toy e)) (before ++ rest) = true.
Proof.
  apply (reference_is_field_base toy "X1" 1990 1999 "thetao" "timeseries" true "diff"
           w_ref ∅ (PyDict thetao_info) toy_raw toy_config (mk_meanfield "REF0" 1950 1959)
           toy_raw toy_raw);
    try (vm_compute; reflexivity).
  - left; reflexivity.
  - intros H; discriminate H.
Defined.

End PostReaderFacts.

(** ** The EOF projector *)

Module EofFacts.

Import Eof LoopFacts.

Section Facts.

Variable L : Lib.
Variables (expname varname : string) (endleg yearspan yearleap : Z).

Local Abbreviation DS := (DS L).
Local Abbreviation World := (World L).

Lemma neofs_yearspan : neofs endleg yearspan = yearspan.
Proof. unfold neofs, endyear, startyear, startleg. lia. Qed.

Definition opened (n : nat) : list (Event L) :=
  map (fun i => EvOpen L (series_file L expname varname endleg (Z.of_nat i))) (seq 0 n).

(** A loop over the series files, each iteration of which opens its file
    and then computes without touching the world. *)
Lemma series_loop (body : Z -> DS -> M World DS) (step : nat -> DS -> Result DS)
    (n : nat) (w : World) (acc0 f : DS) :
  (forall i acc (w' : World), (i < n)%nat -> files L w' = files L w ->
     body (Z.of_nat i) acc w' =
       (step i acc,
        mk_world L (files L w')
          (trace L w' ++ [EvOpen L (series_file L expname varname endleg (Z.of_nat i))]))) ->
  iterate step n acc0 = Ok f ->
  for_fold (map Z.of_nat (seq 0 n)) body acc0 w =
    (Ok f, mk_world L (files L w) (trace L w ++ opened n)).
Proof.
  revert f. induction n as [|n IH]; intros f Hbody Hit.
  - simpl in *. injection Hit as <-. unfold ret, opened. simpl.
    rewrite app_nil_r. destruct w; reflexivity.
  - rewrite seq_S, map_app, for_fold_app. simpl in Hit.
    destruct (iterate step n acc0) as [g|] eqn:Hg; [|discriminate]. cbn [rbind] in Hit.
    unfold bind. rewrite (IH g); [|intros; apply Hbody; [lia|done]|reflexivity].
    simpl. unfold bind. rewrite Hbody; [|lia|reflexivity]. rewrite Hit. unfold ret. simpl.
    unfold opened. rewrite seq_S, map_app, app_assoc. reflexivity.
Qed.


(** *** numpy's binary search *)

Section Search.

Variables (a : list (Num L)) (v : Num L).

Definition below (i : nat) : Prop :=
  forall x, a !! i = Some x -> nlt L x v = true.

Definition not_below (i : nat) : Prop :=
  forall x, a !! i = Some x -> nlt L x v = false.

(** The elements below [v] come first: so it is for a sorted array. *)
Hypothesis partitioned :
  forall i j x y, (i <= j)%nat -> a !! i = Some x -> a !! j = Some y ->
    nlt L y v = true -> nlt L x v = true.

Lemma binsearch_spec fuel lo hi :
  (lo <= hi <= length a)%nat -> (hi - lo <= fuel)%nat ->
  (forall i, (i < lo)%nat -> below i) ->
  (forall i, (hi <= i)%nat -> not_below i) ->
  let r := binsearch L a v fuel lo hi in
  (lo <= r <= hi)%nat /\
  (forall i, (i < r)%nat -> below i) /\
  (forall i, (r <= i)%nat -> not_below i).
Proof.
  revert lo hi. induction fuel as [|fuel IH]; intros lo hi Hb Hf Hlo Hhi; cbn [binsearch].
  - assert (lo = hi) as -> by lia. auto with lia.
  - destruct (Nat.ltb_spec lo hi) as [Hlt|Hge].
    + set (mid := (lo + (hi - lo) / 2)%nat).
      assert (Hmid : (lo <= mid < hi)%nat).
      { assert (Hq : ((hi - lo) / 2 < hi - lo)%nat) by (apply Nat.div_lt; lia).
        unfold mid. revert Hq. generalize ((hi - lo) / 2)%nat. intros q Hq. lia. }
      clearbody mid.
      destruct (a !! mid) as [x|] eqn:Hx.
      * destruct (nlt L x v) eqn:Hxv.
        -- destruct (IH (S mid) hi) as (H1 & H2 & H3); [lia|lia| |exact Hhi|].
           ++ intros i Hi y Hy. apply (partitioned i mid y x); [lia|exact Hy|exact Hx|exact Hxv].
           ++ split; [lia|]. split; assumption.
        -- destruct (IH lo mid) as (H1 & H2 & H3); [lia|lia|exact Hlo| |].
           ++ intros i Hi y Hy. destruct (nlt L y v) eqn:Hyv; [|reflexivity].
              rewrite (partitioned mid i x y) in Hxv; [discriminate|lia|exact Hx|exact Hy|exact Hyv].
           ++ split; [lia|]. split; assumption.
      * apply lookup_ge_None in Hx. lia.
    + assert (lo = hi) as -> by lia. auto with lia.
Qed.

Lemma searchsorted_spec :
  let r := searchsorted L a v in
  (r <= length a)%nat /\
  (forall i, (i < r)%nat -> below i) /\
  (forall i, (r <= i)%nat -> not_below i).
Proof.
  unfold searchsorted.
  destruct (binsearch_spec (length a) 0 (length a)) as (H1 & H2 & H3);
    [lia|lia|intros; lia| |].
  - intros i Hi x Hx. apply lookup_lt_Some in Hx. lia.
  - split; [lia|]. split; assumption.
Qed.

End Search.


(** *** The projection *)

Ltac eunfold :=
  unfold open_mfdataset, to_netcdf, remove_existing_filelist, emit,
    bind, lift, ret, raise, modify, gets in *.

Definition pattern_file : string :=
  leg_file L expname endleg (varname +:+ "_pattern.nc").

Definition eof_file : string :=
  leg_file L expname endleg (varname +:+ "_eof.nc").

Definition cdo_command : string :=
  "cdo info -div " +:+ varname +:+ "_variance.nc -timsum " +:+
  varname +:+ "_variance.nc".

(** What the projector did before the branch on [mode]. *)
Record prepared (w : World) (info : Info) (xf yf pattern field0 : DS) : Prop := {
  prep_info : exists d, observables L "nemo" = Ok d /\ d !! varname = Some info;
  prep_xf : _forecast_xarray L (get_forecast_year L (endyear endleg) yearleap) false = Ok xf;
  prep_yf : _forecast_xarray L (get_forecast_year L (endyear endleg) yearleap) true = Ok yf;
  prep_pattern : exists c,
    files L w !! pattern_file = Some c /\
    (let* data := netcdf_decode L c in
     process_data L data "pattern" (dim info) (grid info)) = Ok pattern;
  prep_field : (let* p0 := isel L [("time", 0)] pattern in mul_int L p0 0) = Ok field0
}.

Definition after_pattern (w : World) : World :=
  mk_world L (files L w) (trace L w ++ [EvOpen L pattern_file]).

Lemma project_eofs_run (w : World) info xf yf pattern field0 mode :
  prepared w info xf yf pattern field0 ->
  project_eofs L expname varname endleg yearspan yearleap mode w =
    match project_mode L expname varname endleg yearspan info pattern xf yf field0 mode
            (after_pattern w) with
    | (Ok f, w2) =>
        match fit_dimensions L info f with
        | Ok f' =>
            (Ok f',
             mk_world L (<[eof_file := netcdf_encode L f']> (files L w2))
               (trace L w2 ++ [EvRemove L eof_file; EvToNetcdf L eof_file f']))
        | Raise e => (Raise e, w2)
        end
    | (Raise e, w2) => (Raise e, w2)
    end.
Proof.
  intros [(d & Hd & Hi) Hxf Hyf (c & Hc & Hp) Hf0].
  unfold project_eofs, after_pattern, pattern_file, eof_file in *.
  eunfold. rewrite Hd. cbn [rbind]. rewrite Hi. cbn [getitem].
  rewrite Hxf, Hyf. cbn. rewrite Hc, Hp, Hf0.
  destruct (project_mode _ _ _ _ _ _ _ _ _ _ _ _) as [[f|e] w2]; [|reflexivity].
  destruct (fit_dimensions L info f) as [f'|e]; [|reflexivity].
  cbn. rewrite insert_delete_eq, <- app_assoc. reflexivity.
Qed.

Section Modes.

Variables (info : Info) (xf yf pattern : DS) (series : nat -> DS).

Definition accumulate (field theta basis : DS) : Result DS :=
  let* term := mul L theta basis in
  iadd L field term.

(** The coefficient of one EOF at the forecast year, as [mode == 'full']
    computes it: the time axis in decimal years, a fit of degree 1 along
    ['time'] that skips missing values, evaluated at [xf]. *)
Definition full_theta (timeseries : DS) : Result DS :=
  let* ts := time_values L timeseries in
  let* new_time := get_decimal_year L ts in
  let* timeseries := setitem_values L timeseries "time" new_time in
  let* p := polyfit L timeseries "time" 1 true in
  let* c := ds_getitem L p (coefficients_name varname) in
  let* _ := values2 L c in
  polyval L xf c.

(** The same as [mode == 'frac'] computes it: the time axis is the one
    of the file. *)
Definition frac_theta (timeseries : DS) : Result DS :=
  let* p := polyfit L timeseries "time" 1 true in
  let* c := ds_getitem L p (coefficients_name varname) in
  polyval L xf c.

Definition full_step (i : nat) (field : DS) : Result DS :=
  let* theta := full_theta (series i) in
  let* basis := isel L [("time", Z.of_nat i)] pattern in
  let* field := accumulate field theta basis in
  setitem L field "time" yf.

Definition frac_step (i : nat) (field : DS) : Result DS :=
  let* theta := frac_theta (series i) in
  let* basis := isel L [("time", Z.of_nat i)] pattern in
  accumulate field theta basis.

(** The series files of the first [n] EOFs are there and load. *)
Definition series_available (w : World) (n : nat) : Prop :=
  forall i, (i < n)%nat -> exists c,
    files L w !! series_file L expname varname endleg (Z.of_nat i) = Some c /\
    (let* data := netcdf_decode L c in
     process_data L data "series" (dim info) (grid info)) = Ok (series i).

Ltac rsteps :=
  repeat match goal with
         | |- context [rbind ?r _] =>
             lazymatch r with
             | Ok _ => fail
             | Raise _ => fail
             | _ => destruct r eqn:?
             end; cbn [rbind]
         end.

Lemma full_body_step (w w' : World) n i acc :
  series_available w n -> (i < n)%nat -> files L w' = files L w ->
  full_body L expname varname endleg info pattern xf yf (Z.of_nat i) acc w' =
    (full_step i acc,
     mk_world L (files L w')
       (trace L w' ++ [EvOpen L (series_file L expname varname endleg (Z.of_nat i))])).
Proof.
  intros Hs Hi Hw. destruct (Hs i Hi) as (c & Hc & Hp).
  unfold full_body. eunfold. cbn. rewrite Hw, Hc, Hp. f_equal.
  unfold full_step, full_theta, accumulate. cbn [rbind]. rsteps; reflexivity.
Qed.

Lemma frac_body_step (w w' : World) n i acc :
  series_available w n -> (i < n)%nat -> files L w' = files L w ->
  frac_body L expname varname endleg info pattern xf (Z.of_nat i) acc w' =
    (frac_step i acc,
     mk_world L (files L w')
       (trace L w' ++ [EvOpen L (series_file L expname varname endleg (Z.of_nat i))])).
Proof.
  intros Hs Hi Hw. destruct (Hs i Hi) as (c & Hc & Hp).
  unfold frac_body. eunfold. cbn. rewrite Hw, Hc, Hp. f_equal.
  unfold frac_step, frac_theta, accumulate. cbn [rbind]. rsteps; reflexivity.
Qed.

End Modes.


Definition threshold_reached (cum : list (Num L)) (count : nat) : Prop :=
  exists x, cum !! (count - 1)%nat = Some x /\ nlt L x (float_0_9 L) = false.

Lemma fit_dimensions_3D info f :
  dim info = "3D" -> fit_dimensions L info f = transpose L f ["time"; "z"; "y"; "x"].
Proof.
  intros H. unfold fit_dimensions. rewrite H. cbn.
  destruct (transpose L f _); reflexivity.
Qed.

Lemma fit_dimensions_2D info f :
  dim info = "2D" -> fit_dimensions L info f = transpose L f ["time"; "y"; "x"].
Proof. intros H. unfold fit_dimensions. rewrite H. reflexivity. Qed.

(** C5.  In [mode == 'full'] the loop runs over the indices 0 to
    [neofs - 1], with [neofs = endyear - startyear + 1]; for each index
    the coefficient series of that index is fitted along ['time'] with
    degree 1, skipping missing values, the fit is evaluated at the
    forecast-year coordinate [xf], and the product with the pattern of that
    index is added to the field, in increasing order of the index. *)
Theorem full_mode_accumulates_every_eof
    (w : World) info xf yf pattern field0 series f f' :
  prepared w info xf yf pattern field0 ->
  series_available info series w (Z.to_nat yearspan) ->
  iterate (full_step xf yf pattern series) (Z.to_nat yearspan) field0 = Ok f ->
  fit_dimensions L info f = Ok f' ->
  neofs endleg yearspan = endyear endleg - startyear endleg yearspan + 1 /\
  neofs endleg yearspan = yearspan /\
  project_eofs L expname varname endleg yearspan yearleap "full" w =
    (Ok f',
     mk_world L (<[eof_file := netcdf_encode L f']> (files L w))
       (trace L w ++ EvOpen L pattern_file :: opened (Z.to_nat yearspan) ++
        [EvRemove L eof_file; EvToNetcdf L eof_file f'])).
Proof.
  intros Hprep Hs Hit Hfit. split; [reflexivity|]. split; [apply neofs_yearspan|].
  rewrite (project_eofs_run w info xf yf pattern field0 "full" Hprep).
  unfold project_mode. cbn [String.eqb Ascii.eqb Bool.eqb].
  rewrite neofs_yearspan, range_nat.
  rewrite (series_loop _ (full_step xf yf pattern series) _ _ _ f); [|  |exact Hit].
  - rewrite Hfit. unfold after_pattern. cbn. rewrite <- !app_assoc. reflexivity.
  - intros i acc w' Hi Hw. by eapply full_body_step.
Qed.

(** C6.  In [mode == 'frac'] the weights read from the lines of the
    output of [cdo info] are cumulated and divided by their sum; when
    these shares are in non-decreasing order and one of them reaches the
    threshold, the loop accumulates exactly the indices 0 to [k - 1],
    where [k] is the least count whose cumulated share is not below the
    threshold. *)
Theorem frac_mode_accumulates_leading_eofs
    (w : World) info xf yf pattern field0 series output weights f f' :
  prepared w info xf yf pattern field0 ->
  check_output L cdo_command = Ok output ->
  parse_weights L (splitlines L output) = Ok weights ->
  let cum := map (fun c => ndiv L c (np_sum L weights)) (cumsum L weights) in
  let k := S (searchsorted L cum (float_0_9 L)) in
  (forall a b c, nlt L b a = false -> nlt L b c = true -> nlt L a c = true) ->
  (forall i j x y, (i <= j)%nat -> cum !! i = Some x -> cum !! j = Some y ->
     nlt L y x = false) ->
  (exists count, threshold_reached cum (S count)) ->
  series_available info series w k ->
  iterate (frac_step xf pattern series) k field0 = Ok f ->
  fit_dimensions L info f = Ok f' ->
  (threshold_reached cum k /\
   forall count, (1 <= count < k)%nat -> ~ threshold_reached cum count) /\
  project_eofs L expname varname endleg yearspan yearleap "frac" w =
    (Ok f',
     mk_world L (<[eof_file := netcdf_encode L f']> (files L w))
       (trace L w ++ EvOpen L pattern_file :: EvSubprocess L cdo_command :: opened k ++
        [EvRemove L eof_file; EvToNetcdf L eof_file f'])).
Proof.
  intros Hprep Hout Hparse cum k Hlaw Hsorted [count Hreach] Hs Hit Hfit.
  assert (Hpart : forall i j x y, (i <= j)%nat -> cum !! i = Some x -> cum !! j = Some y ->
                    nlt L y (float_0_9 L) = true -> nlt L x (float_0_9 L) = true).
  { intros i j x y Hij Hx Hy Hlt. apply (Hlaw x y); [|exact Hlt]. by eapply Hsorted. }
  destruct (searchsorted_spec cum (float_0_9 L) Hpart) as (Hlen & Hbelow & Hnot).
  fold cum in Hlen, Hbelow, Hnot.
  split.
  - split.
    + unfold threshold_reached, k. replace (S (searchsorted L cum (float_0_9 L)) - 1)%nat
        with (searchsorted L cum (float_0_9 L)) by lia.
      destruct (cum !! searchsorted L cum (float_0_9 L)) as [x|] eqn:Hx.
      * exists x. split; [reflexivity|]. by apply (Hnot (searchsorted L cum (float_0_9 L))).
      * exfalso. apply lookup_ge_None in Hx.
        destruct Hreach as (x & Hx' & Hge). replace (S count - 1)%nat with count in Hx' by lia.
        assert (Hc : (count < searchsorted L cum (float_0_9 L))%nat).
        { apply lookup_lt_Some in Hx'. lia. }
        rewrite (Hbelow count Hc x Hx') in Hge. discriminate.
    + intros c Hc (x & Hx & Hge).
      assert (Hlt : (c - 1 < searchsorted L cum (float_0_9 L))%nat) by (unfold k in Hc; lia).
      rewrite (Hbelow _ Hlt x Hx) in Hge. discriminate.
  - rewrite (project_eofs_run w info xf yf pattern field0 "frac" Hprep).
    unfold project_mode. cbn [String.eqb Ascii.eqb Bool.eqb].
    fold cdo_command. unfold bind at 1. unfold emit, modify. unfold bind at 1, lift.
    rewrite Hout. unfold bind at 1. unfold frac_feofs. rewrite Hparse. cbn [rbind].
    unfold cumulative_weights. fold cum. rewrite range_nat.
    replace (Z.to_nat (Z.of_nat (searchsorted L cum (float_0_9 L)) + 1)) with k by (unfold k; lia).
    rewrite (series_loop _ (frac_step xf pattern series) _ _ _ f); [| |exact Hit].
    + rewrite Hfit. unfold after_pattern. cbn. rewrite <- !app_assoc. reflexivity.
    + intros i acc w' Hi Hw. by eapply frac_body_step.
Qed.

(** C7.  Whatever the mode, the field that the branch on [mode] leaves
    is transposed to [(time, z, y, x)] for a 3D variable and to
    [(time, y, x)] for a 2D one, and the transposed field is then written
    to the [{varname}_eof.nc] path of the leg, whatever that path held
    before; the call returns the transposed field. *)
Theorem result_transposed_then_written
    (w w2 : World) info xf yf pattern field0 mode f f' :
  prepared w info xf yf pattern field0 ->
  project_mode L expname varname endleg yearspan info pattern xf yf field0 mode
    (after_pattern w) = (Ok f, w2) ->
  fit_dimensions L info f = Ok f' ->
  (dim info = "3D" -> transpose L f ["time"; "z"; "y"; "x"] = Ok f') /\
  (dim info = "2D" -> transpose L f ["time"; "y"; "x"] = Ok f') /\
  exists w',
    project_eofs L expname varname endleg yearspan yearleap mode w = (Ok f', w') /\
    files L w' = <[eof_file := netcdf_encode L f']> (files L w2) /\
    files L w' !! eof_file = Some (netcdf_encode L f') /\
    trace L w' = trace L w2 ++ [EvRemove L eof_file; EvToNetcdf L eof_file f'].
Proof.
  intros Hprep Hmode Hfit. split; [|split].
  - intros H. by rewrite <- (fit_dimensions_3D info f H).
  - intros H. by rewrite <- (fit_dimensions_2D info f H).
  - rewrite (project_eofs_run w info xf yf pattern field0 mode Hprep), Hmode, Hfit.
    eexists. split; [reflexivity|]. cbn. split; [reflexivity|]. split; [|reflexivity].
    apply lookup_insert_eq.
Qed.

End Facts.

Import EofToy.

Lemma toy_prepared :
  prepared lib "X1" "thetao" 12 5 world obs [2005] [2005] [10; 20; 30] [0].
Proof.
  split.
  - eexists. split; [reflexivity|]. vm_compute. reflexivity.
  - vm_compute. reflexivity.
  - vm_compute. reflexivity.
  - eexists. split; vm_compute; reflexivity.
  - vm_compute. reflexivity.
Defined.

Lemma toy_series n :
  (n <= 3)%nat -> series_available lib "X1" "thetao" 12 obs series world n.
Proof.
  intros Hn i Hi. destruct i as [|[|[|i]]]; [| | |lia];
    (eexists; split; vm_compute; reflexivity).
Defined.

Lemma full_mode_accumulates_every_eof_witness :
  neofs 12 3 = endyear 12 - startyear 12 3 + 1 /\
  neofs 12 3 = 3 /\
  project_eofs lib "X1" "thetao" 12 3 5 "full" world =
    (Ok [200],
     mk_world lib (<[eof_file lib "X1" "thetao" 12 := [200]]> (files lib world))
       (trace lib world ++ EvOpen lib (pattern_file lib "X1" "thetao" 12) ::
        opened lib "X1" "thetao" 12 3 ++
        [EvRemove lib (eof_file lib "X1" "thetao" 12);
         EvToNetcdf lib (eof_file lib "X1" "thetao" 12) [200]])).
Proof.
  apply (full_mode_accumulates_every_eof lib "X1" "thetao" 12 3 5 world obs
           [2005] [2005] [10; 20; 30] [0] series [200] [200]).
  - exact toy_prepared.
  - apply toy_series. vm_compute. lia.
  - vm_compute. reflexivity.
  - vm_compute. reflexivity.
Defined.

Lemma toy_sorted (i j : nat) (x y : Z) :
  (i <= j)%nat -> [60; 90; 100] !! i = Some x -> [60; 90; 100] !! j = Some y ->
  (y <? x) = false.
Proof.
  intros Hij Hx Hy.
  destruct i as [|[|[|i]]], j as [|[|[|j]]]; cbn in Hx, Hy; try discriminate; try lia;
    injection Hx as <-; injection Hy as <-; reflexivity.
Defined.

Lemma frac_mode_accumulates_leading_eofs_witness :
  (threshold_reached lib [60; 90; 100] 2 /\
   forall count, (1 <= count < 2)%nat -> ~ threshold_reached lib [60; 90; 100] count) /\
  project_eofs lib "X1" "thetao" 12 3 5 "frac" world =
    (Ok [80],
     mk_world lib (<[eof_file lib "X1" "thetao" 12 := [80]]> (files lib world))
       (trace lib world ++ EvOpen lib (pattern_file lib "X1" "thetao" 12) ::
        EvSubprocess lib (cdo_command "thetao") ::
        opened lib "X1" "thetao" 12 2 ++
        [EvRemove lib (eof_file lib "X1" "thetao" 12);
         EvToNetcdf lib (eof_file lib "X1" "thetao" 12) [80]])).
Proof.
  apply (frac_mode_accumulates_leading_eofs lib "X1" "thetao" 12 3 5 world obs
           [2005] [2005] [10; 20; 30] [0] series
           "0 : Mean : a : 6|1 : Mean : a : 3|2 : Mean : a : 1" [6; 3; 1] [80] [80]).
  - exact toy_prepared.
  - reflexivity.
  - vm_compute. reflexivity.
  - intros a b c Hba Hbc. cbn in *. lia.
  - exact toy_sorted.
  - exists 1%nat, 90. split; reflexivity.
  - apply toy_series. vm_compute. lia.
  - vm_compute. reflexivity.
  - vm_compute. reflexivity.
Defined.

Lemma result_transposed_then_written_witness :
  (dim obs = "3D" -> transpose lib [200] ["time"; "z"; "y"; "x"] = Ok [200]) /\
  (dim obs = "2D" -> transpose lib [200] ["time"; "y"; "x"] = Ok [200]) /\
  exists w',
    project_eofs lib "X1" "thetao" 12 3 5 "reco" world = (Ok [200], w') /\
    files lib w' = <[eof_file lib "X1" "thetao" 12 := [200]]> (files lib world) /\
    files lib w' !! eof_file lib "X1" "thetao" 12 = Some [200] /\
    trace lib w' =
      (EvOpen lib (pattern_file lib "X1" "thetao" 12) :: opened lib "X1" "thetao" 12 3) ++
      [EvRemove lib (eof_file lib "X1" "thetao" 12);
       EvToNetcdf lib (eof_file lib "X1" "thetao" 12) [200]].
Proof.
  apply (result_transposed_then_written lib "X1" "thetao" 12 3 5 world
           (mk_world lib (files lib world)
              (EvOpen lib (pattern_file lib "X1" "thetao" 12) :: opened lib "X1" "thetao" 12 3))
           obs [2005] [2005] [10; 20; 30] [0] "reco" [200] [200]).
  - exact toy_prepared.
  - vm_compute. reflexivity.
  - vm_compute. reflexivity.
Defined.

End EofFacts.

(** ** The reader of restart files *)

Module RestartFacts.

Import RestartReader LoopFacts.

Section Facts.

Variable L : Lib.

Lemma rebuild_loop expname (legs : list Z) (w : World L) s2 :
  for_each legs (rebuilder L expname) (fs L w) = (Ok tt, s2) ->
  for_each legs (fun leg => call L (CallRebuilder expname leg) (rebuilder L expname leg)) w =
    (Ok tt, mk_world L s2 (calls L w ++ map (CallRebuilder expname) legs)).
Proof.
  revert w. induction legs as [|leg legs IH]; intros w; simpl.
  - unfold ret. intros [= <-]. rewrite app_nil_r. destruct w; reflexivity.
  - unfold bind. unfold call at 1.
    destruct (rebuilder L expname leg (fs L w)) as [[[]|e] s1]; [|discriminate].
    intros H. rewrite (IH (mk_world L s1 (calls L w ++ [CallRebuilder expname leg]))); [|exact H].
    simpl. rewrite <- app_assoc. reflexivity.
Qed.

(** C9.  [reader_restart] returns what [reader_rebuilt] returns when it
    succeeds, after that one call; when it raises [FileNotFoundError],
    [rebuilder] is called once for every leg from [get_leg(startyear)] to
    [get_leg(endyear)] inclusive, in increasing order, and [reader_rebuilt]
    is called once more: its outcome, an exception included, is the
    outcome of the call. *)
Theorem reader_restart_rebuilds_once expname startyear endyear (w : World L) :
  let startleg := get_leg L startyear in
  let endleg := get_leg L endyear in
  let legs := range2 startleg (endleg + 1) in
  let read := CallReaderRebuilt expname startleg endleg in
  (forall data s1,
     reader_rebuilt L expname startleg endleg (fs L w) = (Ok data, s1) ->
     reader_restart L expname startyear endyear w =
       (Ok data, mk_world L s1 (calls L w ++ [read]))) /\
  (forall s1 s2,
     reader_rebuilt L expname startleg endleg (fs L w) = (Raise FileNotFoundError, s1) ->
     for_each legs (rebuilder L expname) s1 = (Ok tt, s2) ->
     reader_restart L expname startyear endyear w =
       (fst (reader_rebuilt L expname startleg endleg s2),
        mk_world L (snd (reader_rebuilt L expname startleg endleg s2))
          (calls L w ++ [read] ++ map (CallRebuilder expname) legs ++ [read]))) /\
  (forall leg, leg ∈ legs <-> startleg <= leg <= endleg) /\
  NoDup legs.
Proof.
  intros startleg endleg legs read. subst startleg endleg legs read. split; [|split; [|split]].
  - intros data s1 H. unfold reader_restart.
    unfold bind, except_FileNotFoundError, call, ret. rewrite H. reflexivity.
  - intros s1 s2 H Hloop. unfold reader_restart.
    unfold bind at 1. unfold except_FileNotFoundError. unfold call at 1. rewrite H.
    unfold bind at 1.
    rewrite (rebuild_loop expname _ (mk_world L s1 _) s2 Hloop).
    unfold call. simpl. destruct (reader_rebuilt L expname _ _ s2) as [r s3].
    simpl. rewrite <- !app_assoc. reflexivity.
  - intros leg. rewrite elem_of_range2. lia.
  - apply NoDup_range2.
Qed.

End Facts.

Lemma reader_restart_rebuilds_once_witness :
  RestartReader.reader_restart RestartToy.lib "X1" 1990 1992 RestartToy.world =
    (Ok [2; 3; 4],
     RestartReader.mk_world RestartToy.lib [4; 3; 2; 2]
       [RestartReader.CallReaderRebuilt "X1" 2 4; RestartReader.CallRebuilder "X1" 2;
        RestartReader.CallRebuilder "X1" 3; RestartReader.CallRebuilder "X1" 4;
        RestartReader.CallReaderRebuilt "X1" 2 4]).
Proof.
  exact (proj1 (proj2 (reader_restart_rebuilds_once RestartToy.lib "X1" 1990 1992
                         RestartToy.world))
           [2] [4; 3; 2; 2] eq_refl eq_refl).
Defined.

End RestartFacts.

(** ** The roll-back tool *)

Module RollbackFacts.
Import Rollback.

Section Facts.

Variable L : Lib.

Local Abbreviation Yaml := (Yaml (Date L)).

Lemma assoc_get_set_eq (m : list (string * Yaml)) k v :
  assoc_get L (assoc_set L m k v) k = Some v.
Proof.
  induction m as [|[k' v'] m IH]; simpl.
  - by rewrite String.eqb_refl.
  - destruct (String.eqb k' k) eqn:E; simpl.
    + by rewrite String.eqb_refl.
    + by rewrite E.
Qed.

Lemma assoc_get_set_ne (m : list (string * Yaml)) k k' v :
  k <> k' -> assoc_get L (assoc_set L m k v) k' = assoc_get L m k'.
Proof.
  intros Hne. induction m as [|[k0 v0] m IH]; simpl.
  - apply String.eqb_neq in Hne. by rewrite Hne.
  - destruct (String.eqb k0 k) eqn:E; simpl.
    + apply String.eqb_eq in E as ->. apply String.eqb_neq in Hne. by rewrite Hne.
    + destruct (String.eqb k0 k'); [reflexivity|exact IH].
Qed.

(** Assigning below a path that leads to a dictionary succeeds, and the
    dictionary read back along the path is the updated one. *)
Lemma yaml_set_path_get (ks : list string) (d : Yaml) m k v :
  yaml_get_path L d ks = Ok (YMap m) ->
  exists d', yaml_set_path L d ks k v = Ok d' /\
             yaml_get_path L d' ks = Ok (YMap (assoc_set L m k v)).
Proof.
  revert d. induction ks as [|k1 ks IH]; intros d; simpl.
  - intros [= ->]. eexists. split; reflexivity.
  - destruct d; simpl; try discriminate.
    destruct (assoc_get L m0 k1) as [d1|] eqn:Hk; simpl; [|discriminate].
    intros H. destruct (IH d1 H) as (d1' & Hset & Hget).
    rewrite Hset. simpl. eexists. split; [reflexivity|].
    simpl. rewrite assoc_get_set_eq. simpl. exact Hget.
Qed.

(** The leg entry of a document: its number and its start date. *)
Definition leg_entry (leginfo : Yaml) (num : Z) (start : Date L) : Prop :=
  exists m, yaml_get_path L leginfo leg_path = Ok (YMap m) /\
            (let* v := getitem (assoc_get L m "num") in as_int L v) = Ok num /\
            (let* v := getitem (assoc_get L m "start") in as_date L v) = Ok start.

(** C10.  The roll-back rewrites [leginfo.yml] only when the requested
    leg is below the recorded one, and then with the requested number and
    the shifted start date; when the two are equal the file is left as it
    is; when the requested leg is above, [ValueError] is raised and
    nothing is modified. *)
Theorem leginfo_rewritten_only_on_rollback expname leg (w : World L)
    c leginfo n num start newdate :
  files L w !! legfile_of expname = Some c ->
  yaml_load L c = Ok leginfo ->
  leg_entry leginfo num start ->
  int L leg = Ok n ->
  add_years L start (n - num) = Ok newdate ->
  (n < num ->
   exists leginfo',
     leg_entry leginfo' n newdate /\
     update_leginfo L expname leg w =
       (Ok (newdate, start),
        mk_world L (<[legfile_of expname := yaml_dump L leginfo']> (files L w))
          (stdout L w ++ ["Updating the leginfo to leg number " +:+ leg]))) /\
  (n = num ->
   update_leginfo L expname leg w =
     (Ok (newdate, start),
      mk_world L (files L w) (stdout L w ++ ["Nothing to do on the leginfo.yaml"]))) /\
  (n > num -> update_leginfo L expname leg w = (Raise ValueError, w)).
Proof.
  intros Hf Hload (m & Hpath & Hnum & Hstart) Hint Hadd.
  assert (Hrun :
    update_leginfo L expname leg w =
    bind (if n <? num then
            bind (lift (yaml_set_path L leginfo leg_path "num" (YInt n))) (fun leginfo1 =>
            bind (lift (yaml_set_path L leginfo1 leg_path "start" (YDate newdate))) (fun leginfo2 =>
            bind (print L ("Updating the leginfo to leg number " +:+ leg)) (fun _ =>
            write_yaml L (legfile_of expname) leginfo2)))
          else if n =? num then print L "Nothing to do on the leginfo.yaml"
          else raise ValueError)
         (fun _ => ret (newdate, start)) w).
  { unfold update_leginfo, read_yaml, yaml_getitem.
    unfold bind, lift, gets. rewrite Hf, Hload, Hpath, Hint. cbn [rbind].
    destruct (getitem (assoc_get L m "num")) as [vn|]; [|discriminate]. cbn [rbind] in *.
    rewrite Hnum. cbn [rbind].
    destruct (getitem (assoc_get L m "start")) as [vs|]; [|discriminate]. cbn [rbind] in *.
    rewrite Hstart. cbn [rbind]. rewrite Hadd. reflexivity. }
  rewrite Hrun. clear Hrun. split; [|split].
  - intros Hlt. apply Z.ltb_lt in Hlt. rewrite Hlt.
    destruct (yaml_set_path_get leg_path leginfo m "num" (YInt n) Hpath) as (d1 & Hs1 & Hg1).
    destruct (yaml_set_path_get leg_path d1 _ "start" (YDate newdate) Hg1) as (d2 & Hs2 & Hg2).
    exists d2. split.
    + eexists. split; [exact Hg2|]. split.
      * rewrite assoc_get_set_ne by discriminate. rewrite assoc_get_set_eq. reflexivity.
      * rewrite assoc_get_set_eq. reflexivity.
    + unfold bind, lift, print, write_yaml, modify, ret. rewrite Hs1, Hs2. reflexivity.
  - intros ->. rewrite Z.ltb_irrefl, Z.eqb_refl. reflexivity.
  - intros Hgt.
    destruct (Z.ltb_spec n num); [lia|]. destruct (Z.eqb_spec n num); [lia|].
    reflexivity.
Qed.

End Facts.

Lemma leginfo_rewritten_only_on_rollback_witness :
  exists leginfo',
    leg_entry RollbackToy.lib leginfo' 3 1992 /\
    Rollback.update_leginfo RollbackToy.lib "X1" "3" RollbackToy.world =
      (Ok (1992, 1994),
       Rollback.mk_world RollbackToy.lib
         (<[Rollback.legfile_of "X1" := Rollback.yaml_dump RollbackToy.lib leginfo']>
            (Rollback.files RollbackToy.lib RollbackToy.world))
         (Rollback.stdout RollbackToy.lib RollbackToy.world ++
          ["Updating the leginfo to leg number " +:+ "3"])).
Proof.
  refine (proj1 (leginfo_rewritten_only_on_rollback RollbackToy.lib "X1" "3"
                   RollbackToy.world (RollbackToy.leginfo 5 1994) (RollbackToy.leginfo 5 1994)
                   3 5 1994 1992 _ _ _ _ _) _).
  - vm_compute. reflexivity.
  - reflexivity.
  - eexists. split; [reflexivity|]. split; reflexivity.
  - reflexivity.
  - reflexivity.
  - lia.
Defined.

End RollbackFacts.

(** ** Computations that leave a part of the world as it is *)

(** ** What a computation leaves alone, and what it appends *)

Module Frames.

Section Frame.

Context {W F : Type} (proj : W -> F).

(** [c] leaves the part [proj] of the world unchanged, however it ends. *)
Definition keeps {A} (c : M W A) : Prop :=
  forall w, proj (c w).2 = proj w.


Lemma keeps_raise {A} (e : PyErr) : keeps (@raise W A e).
Proof. intros w. reflexivity. Qed.

Lemma keeps_lift {A} (r : Result A) : keeps (lift r).
Proof. intros w. reflexivity. Qed.

Lemma keeps_gets {A} (f : W -> A) : keeps (gets f).
Proof. intros w. reflexivity. Qed.

Lemma keeps_modify (f : W -> W) :
  (forall w, proj (f w) = proj w) -> keeps (modify f).
Proof. intros H w. apply H. Qed.

Lemma keeps_bind {A B} (c : M W A) (k : A -> M W B) :
  keeps c -> (forall a, keeps (k a)) -> keeps (bind c k).
Proof.
  intros Hc Hk w. unfold bind. specialize (Hc w).
  destruct (c w) as [[a|e] w1]; simpl in *; [|exact Hc].
  rewrite Hk. exact Hc.
Qed.



(** A property of the final part of the world, through a first step that
    keeps it. *)
Lemma outcome_bind {A B} (P : Result B * W -> Prop) (c : M W A) (k : A -> M W B) (w : W) :
  keeps c ->
  (forall e w1, proj w1 = proj w -> P (Raise e, w1)) ->
  (forall a w1, proj w1 = proj w -> P (k a w1)) ->
  P (bind c k w).
Proof.
  intros Hc He Hk. unfold bind. specialize (Hc w).
  destruct (c w) as [[a|e] w1]; simpl in Hc; auto.
Qed.

End Frame.

Section Trace.

Context {W E : Type} (tr : W -> list E).

(** [c] only appends to the trace, and what it appends satisfies [Q]. *)
Definition appends (Q : E -> Prop) {A} (c : M W A) : Prop :=
  forall w, exists l, tr (c w).2 = tr w ++ l /\ Forall Q l.

Lemma appends_ret Q {A} (a : A) : appends Q (ret a).
Proof. intros w. exists []. by rewrite app_nil_r. Qed.

Lemma appends_raise Q {A} (e : PyErr) : appends Q (@raise W A e).
Proof. intros w. exists []. by rewrite app_nil_r. Qed.

Lemma appends_lift Q {A} (r : Result A) : appends Q (lift r).
Proof. intros w. exists []. by rewrite app_nil_r. Qed.

Lemma appends_gets Q {A} (f : W -> A) : appends Q (gets f).
Proof. intros w. exists []. by rewrite app_nil_r. Qed.

Lemma appends_bind Q {A B} (c : M W A) (k : A -> M W B) :
  appends Q c -> (forall a, appends Q (k a)) -> appends Q (bind c k).
Proof.
  intros Hc Hk w. unfold bind. destruct (Hc w) as (l1 & H1 & Q1).
  destruct (c w) as [[a|e] w1]; simpl in *; [|eauto].
  destruct (Hk a w1) as (l2 & H2 & Q2). exists (l1 ++ l2). split.
  - rewrite H2, H1, app_assoc. reflexivity.
  - by apply Forall_app.
Qed.

Lemma appends_except Q {A} (c : M W A) :
  appends Q c -> appends Q (except_FileNotFoundError c).
Proof.
  intros Hc w. unfold except_FileNotFoundError. specialize (Hc w).
  destruct (c w) as [[a|[]] w1]; exact Hc.
Qed.

End Trace.

End Frames.

(** ** The post-reader: files and effects *)

Module PostReaderEffects.

Import Vardict PostReader PostReaderFacts Frames.

Section Facts.

Variable L : Lib.

Local Abbreviation keepsf := (keeps (files L)).





(** X6.  [averaging] returns a dataset for [diagname == 'timeseries'] only:
    the catalogue entry is a dictionary, so no test [ndim == '3D'] or
    [ndim == '2D'] holds, and every other diagnostic ends in an exception. *)
Theorem averaging_raises_unless_timeseries expname data varlabel diagname :
  diagname <> "timeseries" ->
  exists e, averaging L expname data varlabel diagname = Raise e.
Proof.
  intros Hne. destruct (averaging L expname data varlabel diagname) as [ds|e] eqn:H.
  - apply averaging_ok_only_timeseries in H. contradiction.
  - eauto.
Qed.



(** The events of a call with [metrics == 'base']. *)
Definition base_event (path : string) (e : Event L) : Prop :=
  match e with
  | EvYamlLoad _ _ | EvCost _ _ _ _ => False
  | EvOpenDataset _ f | EvRemove _ f | EvToNetcdf _ f _ => f = path
  | EvReaderNemo _ _ _ _ | EvAveraging _ _ _ _ _ | EvMakedirs _ _ => True
  end.

Lemma appends_emit Q (e : Event L) : Q e -> appends (trace L) Q (emit L e).
Proof. intros H w. exists [e]. split; [reflexivity|]. by constructor. Qed.

Lemma appends_open_dataset (Q : Event L -> Prop) filename :
  Q (EvOpenDataset L filename) -> appends (trace L) Q (open_dataset L filename).
Proof.
  intros H. unfold open_dataset. apply appends_bind; [by apply appends_emit|]. intros _.
  apply appends_bind; [apply appends_gets|]. intros [c|]; [apply appends_lift|apply appends_raise].
Qed.

Lemma appends_remove (Q : Event L -> Prop) filename :
  Q (EvRemove L filename) -> appends (trace L) Q (remove_existing_file L filename).
Proof.
  intros H. unfold remove_existing_file. apply appends_bind; [by apply appends_emit|].
  intros _ w. exists []. by rewrite app_nil_r.
Qed.

Lemma appends_to_netcdf (Q : Event L -> Prop) ds filename :
  Q (EvToNetcdf L filename ds) -> appends (trace L) Q (to_netcdf L ds filename).
Proof.
  intros H. unfold to_netcdf. apply appends_bind; [by apply appends_emit|].
  intros _ w. exists []. by rewrite app_nil_r.
Qed.

(** X2.  With [metrics == 'base'] the call never loads [meanfield.yaml] and
    never evaluates [cost], and every file it opens, removes or writes is
    its own product. *)
Theorem base_metric_reads_no_reference
    expname sy ey varlabel diagname replace (w : World L) :
  exists l,
    trace L (postreader_averaged L expname sy ey varlabel diagname replace "base" w).2 =
      trace L w ++ l /\
    Forall (base_event (product_path L expname sy ey varlabel diagname "base")) l.
Proof.
  revert w. change (appends (trace L)
    (base_event (product_path L expname sy ey varlabel diagname "base"))
    (postreader_averaged L expname sy ey varlabel diagname replace "base")).
  unfold postreader_averaged, product_path.
  destruct (split_varlabel varlabel) as [varname subregion].
  set (path := path_join _ _).
  assert (Hread : appends (trace L) (base_event path)
            (reader_averaged L expname sy ey varlabel diagname "base")).
  { apply appends_open_dataset. reflexivity. }
  apply appends_bind; [apply appends_lift|]. intros df.
  apply appends_bind; [apply appends_lift|]. intros ndim.
  apply appends_bind.
  { apply appends_except. destruct (negb replace); [|apply appends_ret].
    apply appends_bind; [exact Hread|intros; apply appends_ret]. }
  assert (Hrecompute : appends (trace L) (base_event path)
    (do* _ := emit L (EvReaderNemo L expname sy ey) in
     do* xdata := lift (reader_nemo L expname sy ey) in
     do* xdata := ret xdata in
     do* _ := emit L (EvAveraging L expname xdata varlabel diagname) in
     do* ds := lift (averaging L expname xdata varlabel diagname) in
     do* _ := makedirs L (perm (folders L expname)) in
     do* _ := (if replace then remove_existing_file L path else ret tt) in
     do* _ := to_netcdf L ds path in
     reader_averaged L expname sy ey varlabel diagname "base")).
  { apply appends_bind; [by apply appends_emit|]. intros _.
    apply appends_bind; [apply appends_lift|]. intros xdata.
    apply appends_bind; [apply appends_ret|]. intros xdata'.
    apply appends_bind; [by apply appends_emit|]. intros _.
    apply appends_bind; [apply appends_lift|]. intros ds.
    apply appends_bind; [by apply appends_emit|]. intros _.
    apply appends_bind.
    { destruct replace; [by apply appends_remove|apply appends_ret]. }
    intros _. apply appends_bind; [by apply appends_to_netcdf|intros _; exact Hread]. }
  intros [[data|]|]; [apply appends_ret|exact Hrecompute|exact Hrecompute].
Qed.

(** The recompute path of [postreader_averaged], from the raw read on. *)
Definition recompute (expname : string) (sy ey : Z) (varlabel diagname : string)
    (replace : bool) (metrics : string) : M (World L) (Dataset (Arr L)) :=
  let path := product_path L expname sy ey varlabel diagname metrics in
  do* _ := emit L (EvReaderNemo L expname sy ey) in
  do* xdata := lift (reader_nemo L expname sy ey) in
  do* xdata :=
    if negb (String.eqb metrics "base") then
      let filename := path_join (osprey (folders L expname)) "meanfield.yaml" in
      do* _ := emit L (EvYamlLoad L filename) in
      do* config := lift (yaml_load L filename) in
      do* (exp0, y0, y1) := lift (meanfield_locals config) in
      do* mdata := reader_averaged L exp0 y0 y1 varlabel "field" "base" in
      do* _ := emit L (EvCost L xdata mdata metrics) in
      lift (cost L xdata mdata metrics)
    else ret xdata in
  do* _ := emit L (EvAveraging L expname xdata varlabel diagname) in
  do* ds := lift (averaging L expname xdata varlabel diagname) in
  do* _ := makedirs L (perm (folders L expname)) in
  do* _ := (if replace then remove_existing_file L path else ret tt) in
  do* _ := to_netcdf L ds path in
  reader_averaged L expname sy ey varlabel diagname metrics.

Lemma replace_run expname sy ey varlabel diagname metrics (w : World L) df ndim :
  elements L expname = Ok df ->
  vardict_nemo (split_varlabel varlabel).1 = Ok ndim ->
  postreader_averaged L expname sy ey varlabel diagname true metrics w =
  recompute expname sy ey varlabel diagname true metrics w.
Proof.
  intros He Hv. unfold postreader_averaged, recompute, product_path.
  destruct (split_varlabel varlabel) as [varname subregion]. simpl in Hv.
  unfold bind at 1, lift at 1. rewrite He.
  unfold bind at 1, lift at 1. rewrite Hv.
  reflexivity.
Qed.



(** X4.  With a metrics other than ['base'] and a configuration that has no
    key ['meanfield'], the locals [exp0], [y0], [y1] are unbound when the
    reference is read: [UnboundLocalError], after the raw read and the load
    of the configuration, with no file touched. *)
Theorem missing_meanfield_key_is_fatal
    expname sy ey varlabel diagname metrics (w : World L) df ndim xdata :
  elements L expname = Ok df ->
  vardict_nemo (split_varlabel varlabel).1 = Ok ndim ->
  reader_nemo L expname sy ey = Ok xdata ->
  metrics <> "base" ->
  yaml_load L (config_path L expname) = Ok (mk_config None) ->
  postreader_averaged L expname sy ey varlabel diagname true metrics w =
    (Raise UnboundLocalError,
     mk_world L (files L w)
       (trace L w ++ [EvReaderNemo L expname sy ey; EvYamlLoad L (config_path L expname)])).
Proof.
  intros He Hv Hraw Hm Hy. rewrite (replace_run _ _ _ _ _ _ _ df ndim He Hv).
  apply String.eqb_neq in Hm. unfold recompute, config_path, product_path in *.
  munfold. rewrite Hraw, Hm. simpl. rewrite Hy. simpl.
  rewrite <- app_assoc. reflexivity.
Qed.

(** X5.  A variable name outside the catalogue: [postreader_averaged] and
    [averaging] raise [KeyError], the former before any effect. *)
Theorem unknown_variable_raises_KeyError
    expname sy ey varlabel diagname replace metrics (w : World L) data df :
  elements L expname = Ok df ->
  (split_varlabel varlabel).1 ∉ nemo_list.*1 ->
  postreader_averaged L expname sy ey varlabel diagname replace metrics w = (Raise KeyError, w) /\
  averaging L expname data varlabel diagname = Raise KeyError.
Proof.
  intros He Hn.
  assert (Hv : vardict_nemo (split_varlabel varlabel).1 = Raise KeyError).
  { unfold vardict_nemo, vardict. cbn [String.eqb Ascii.eqb Bool.eqb rbind].
    rewrite (not_elem_of_list_to_map_1 _ _ Hn). reflexivity. }
  unfold postreader_averaged, averaging.
  destruct (split_varlabel varlabel) as [varname subregion]. cbn [fst] in Hv.
  unfold bind, lift. rewrite He. cbn [rbind]. rewrite Hv. split; reflexivity.
Qed.

End Facts.

Import PostReaderToy.

(** The toy library with a configuration that has no key ['meanfield']. *)
Definition toy_nokey : Lib :=
  {| Arr := Z; File := Dataset Z;
     folders := toy_dirs;
     elements := fun _ => Ok ∅;
     reader_nemo := fun _ _ _ => Ok toy_raw;
     yaml_load := fun _ => Ok (mk_config None);
     cost := fun x _ _ => Ok x;
     spacemean := fun _ _ _ _ => Ok 7;
     timemean := fun _ _ => Ok 8;
     get_decimal_year := fun a => Ok a;
     flatten := fun a => a;
     weighted_mean := fun _ _ _ => Ok 9;
     netcdf_encode := fun d => d;
     netcdf_decode := fun f => Ok f |}.

Lemma averaging_raises_unless_timeseries_witness :
  exists e, averaging toy "X1" toy_raw "thetao" "field" = Raise e.
Proof.
  apply (averaging_raises_unless_timeseries toy "X1" toy_raw "thetao" "field").
  intros H; discriminate H.
Defined.


Lemma missing_meanfield_key_is_fatal_witness :
  postreader_averaged toy_nokey "X1" 1990 1999 "thetao" "timeseries" true "diff"
      (mk_world toy_nokey ∅ []) =
    (Raise UnboundLocalError,
     mk_world toy_nokey ∅
       [EvReaderNemo toy_nokey "X1" 1990 1999;
        EvYamlLoad toy_nokey (config_path toy_nokey "X1")]).
Proof.
  apply (missing_meanfield_key_is_fatal toy_nokey "X1" 1990 1999 "thetao" "timeseries" "diff"
           (mk_world toy_nokey ∅ []) ∅ (PyDict thetao_info) toy_raw);
    try (vm_compute; reflexivity).
  intros H; discriminate H.
Defined.

Lemma unknown_variable_raises_KeyError_witness :
  postreader_averaged toy "X1" 1990 1999 "foo" "field" false "base" w0 = (Raise KeyError, w0) /\
  averaging toy "X1" toy_raw "foo" "field" = Raise KeyError.
Proof.
  apply (unknown_variable_raises_KeyError toy "X1" 1990 1999 "foo" "field" false "base"
           w0 toy_raw ∅).
  - reflexivity.
  - refine (bool_decide_unpack _ _). vm_compute. exact I.
Defined.

End PostReaderEffects.

(** ** Equations of the monad *)

Module MonadFacts.

Section Facts.

Context {W : Type}.

Lemma bind_ret_r {A} (c : M W A) (w : W) : bind c (fun a => ret a) w = c w.
Proof. unfold bind, ret. destruct (c w) as [[a|e] w1]; reflexivity. Qed.

Lemma bind_ext {A B} (c : M W A) (k1 k2 : A -> M W B) (w : W) :
  (forall a w1, k1 a w1 = k2 a w1) -> bind c k1 w = bind c k2 w.
Proof. intros H. unfold bind. destruct (c w) as [[a|e] w1]; [apply H|reflexivity]. Qed.

Lemma bind_cong {A B} (c1 c2 : M W A) (k : A -> M W B) (w : W) :
  c1 w = c2 w -> bind c1 k w = bind c2 k w.
Proof. intros H. unfold bind. rewrite H. reflexivity. Qed.

End Facts.

End MonadFacts.

(** ** The EOF projector: the other modes, the weights, the files *)

Module EofModes.

Import Eof LoopFacts EofFacts MonadFacts Frames.

Section Facts.

Variable L : Lib.
Variables (expname varname : string) (endleg yearspan yearleap : Z).

Local Abbreviation DS := (DS L).
Local Abbreviation World := (World L).

(** X7.  [process_data] raises [ValueError] for a [dim], a [grid] or an
    [ftype] outside the supported ones, whatever the data. *)
Theorem process_data_rejects_bad_arguments (data : DS) (ftype dim grid : string) :
  dim ∉ ["2D"; "3D"] \/ grid ∉ ["T"; "U"; "V"; "W"] \/
  ftype ∉ ["pattern"; "series"; "post"] ->
  process_data L data ftype dim grid = Raise ValueError.
Proof.
  intros H. unfold process_data, _grid_mapping, is_grid.
  destruct (decide (dim ∈ ["2D"; "3D"])) as [Hd|Hd].
  2:{ rewrite bool_decide_eq_false_2 by exact Hd. reflexivity. }
  rewrite bool_decide_eq_true_2 by exact Hd. cbn [negb].
  destruct (decide (grid ∈ ["T"; "U"; "V"; "W"])) as [Hg|Hg].
  2:{ rewrite bool_decide_eq_false_2 by exact Hg. reflexivity. }
  rewrite !bool_decide_eq_true_2 by exact Hg. cbn [negb rbind].
  destruct H as [H|[H|H]]; [contradiction|contradiction|].
  destruct (String.eqb_spec ftype "pattern") as [->|_]; [exfalso; apply H; rewrite !elem_of_cons; auto|].
  destruct (String.eqb_spec ftype "series") as [->|_]; [exfalso; apply H; rewrite !elem_of_cons; auto|].
  destruct (String.eqb_spec ftype "post") as [->|_]; [exfalso; apply H; rewrite !elem_of_cons; auto|].
  reflexivity.
Qed.

(** X8.  [mode == 'first'] is [mode == 'full'] over a window of one year:
    same result, same files, same effects. *)
Theorem first_mode_is_full_over_one_year (w : World) :
  project_eofs L expname varname endleg yearspan yearleap "first" w =
  project_eofs L expname varname endleg 1 yearleap "full" w.
Proof.
  unfold project_eofs.
  apply bind_ext. intros d w1. apply bind_ext. intros info w2.
  apply bind_ext. intros xf w3. apply bind_ext. intros yf w4.
  apply bind_ext. intros pattern w5. apply bind_ext. intros field w6.
  apply bind_cong.
  unfold project_mode. cbn [String.eqb Ascii.eqb Bool.eqb].
  rewrite neofs_yearspan. change (range 1) with [0]. cbn [for_fold].
  rewrite bind_ret_r. reflexivity.
Qed.

Ltac eunfold :=
  unfold open_mfdataset, to_netcdf, remove_existing_filelist, emit,
    bind, lift, ret, raise, modify, gets in *.

Section Reco.

Variables (info : Info) (pattern : DS) (series : nat -> DS).



End Reco.


(** X10.  [mode == 'fit'] evaluates the linear trend of the variable itself,
    read from [{varname}.nc], at the forecast date; the pattern file is
    opened all the same, and no coefficient series is. *)
Theorem fit_mode_fits_the_field
    (w : World) info xf yf pattern field0 c data f f' :
  prepared L expname varname endleg yearleap w info xf yf pattern field0 ->
  files L w !! leg_file L expname endleg (varname +:+ ".nc") = Some c ->
  (let* d := netcdf_decode L c in
   process_data L d "pattern" (dim info) (grid info)) = Ok data ->
  (let* v := ds_getitem L data varname in
   let* p := polyfit L v "time" 1 true in
   let* k := ds_getattr L p "polyfit_coefficients" in
   polyval L xf k) = Ok f ->
  fit_dimensions L info f = Ok f' ->
  project_eofs L expname varname endleg yearspan yearleap "fit" w =
    (Ok f',
     mk_world L (<[eof_file L expname varname endleg := netcdf_encode L f']> (files L w))
       (trace L w ++
        [EvOpen L (pattern_file L expname varname endleg);
         EvOpen L (leg_file L expname endleg (varname +:+ ".nc"));
         EvRemove L (eof_file L expname varname endleg);
         EvToNetcdf L (eof_file L expname varname endleg) f'])).
Proof.
  intros Hprep Hc Hd Hf Hfit.
  rewrite (project_eofs_run L expname varname endleg yearspan yearleap w info xf yf pattern
             field0 "fit" Hprep).
  unfold project_mode. cbn [String.eqb Ascii.eqb Bool.eqb].
  unfold after_pattern. eunfold. cbn. rewrite Hc, Hd, Hf, Hfit. cbn.
  rewrite <- !app_assoc. reflexivity.
Qed.

(** X11.  Whatever the mode, ['fit'] included, a missing pattern file ends
    the call with the exception of [open_mfdataset], and no file is
    touched. *)
Theorem missing_pattern_file_is_fatal (w : World) mode d info xf yf :
  observables L "nemo" = Ok d -> d !! varname = Some info ->
  _forecast_xarray L (get_forecast_year L (endyear endleg) yearleap) false = Ok xf ->
  _forecast_xarray L (get_forecast_year L (endyear endleg) yearleap) true = Ok yf ->
  files L w !! pattern_file L expname varname endleg = None ->
  project_eofs L expname varname endleg yearspan yearleap mode w =
    (Raise OSError,
     mk_world L (files L w)
       (trace L w ++ [EvOpen L (pattern_file L expname varname endleg)])).
Proof.
  intros Hd Hi Hxf Hyf Hnone. unfold project_eofs, pattern_file in *.
  eunfold. rewrite Hd. cbn [rbind]. rewrite Hi. cbn [getitem]. rewrite Hxf, Hyf. cbn.
  rewrite Hnone. reflexivity.
Qed.


(** *** The weights of [mode == 'frac'] *)

Definition weight_of_line (line : string) (weight : Num L) : Prop :=
  exists field,
    list_getitem (split ":" line) 3 = Ok field /\ float L (strip L field) = Ok weight.

(** X13.  The weights of [mode == 'frac'] are, in order, the fourth
    colon-separated field of each line of the output that contains
    ["Mean"], stripped and read as a float. *)
Theorem parse_weights_one_per_Mean_line (lines : list string) (weights : list (Num L)) :
  parse_weights L lines = Ok weights ->
  Forall2 weight_of_line (List.filter (contains "Mean") lines) weights.
Proof.
  revert weights. induction lines as [|line lines IH]; intros weights; cbn [parse_weights List.filter].
  - intros [= <-]. constructor.
  - destruct (contains "Mean" line).
    + destruct (list_getitem (split ":" line) 3) as [field|] eqn:Hf; cbn [rbind]; [|discriminate].
      destruct (float L (strip L field)) as [x|] eqn:Hx; cbn [rbind]; [|discriminate].
      destruct (parse_weights L lines) as [ws|]; cbn [rbind]; [|discriminate].
      intros [= <-]. constructor; [|by apply IH]. exists field. split; assumption.
    + apply IH.
Qed.

Lemma parse_weights_no_Mean (lines : list string) :
  Forall (fun line => contains "Mean" line = false) lines ->
  parse_weights L lines = Ok [].
Proof.
  induction 1 as [|line lines Hl _ IH]; cbn [parse_weights]; [reflexivity|].
  rewrite Hl. exact IH.
Qed.

(** X14.  When no line of the output contains ["Mean"] there is no weight,
    and [mode == 'frac'] uses one EOF. *)
Theorem frac_without_weights_uses_one_eof (output : string) :
  Forall (fun line => contains "Mean" line = false) (splitlines L output) ->
  frac_feofs L output = Ok 1.
Proof.
  intros H. unfold frac_feofs. rewrite (parse_weights_no_Mean _ H). reflexivity.
Qed.

Lemma binsearch_bounds (a : list (Num L)) v fuel lo hi :
  (lo <= hi)%nat -> (lo <= binsearch L a v fuel lo hi <= hi)%nat.
Proof.
  revert lo hi. induction fuel as [|fuel IH]; intros lo hi Hle; cbn [binsearch]; [lia|].
  destruct (Nat.ltb_spec lo hi) as [Hlt|Hge]; [|lia].
  assert (Hq : ((hi - lo) / 2 < hi - lo)%nat) by (apply Nat.div_lt; lia).
  revert Hq. generalize ((hi - lo) / 2)%nat. intros q Hq.
  destruct (a !! (lo + q)%nat) as [x|]; [|lia].
  destruct (nlt L x v).
  - specialize (IH (S (lo + q)) hi). lia.
  - specialize (IH lo (lo + q)%nat). lia.
Qed.

Lemma length_cumsum_from acc (ws : list (Num L)) :
  length (cumsum_from L acc ws) = length ws.
Proof.
  revert acc. induction ws as [|x ws IH]; intros acc; simpl; [reflexivity|].
  by rewrite IH.
Qed.

Lemma length_cumulative_weights (ws : list (Num L)) :
  length (cumulative_weights L ws) = length ws.
Proof.
  unfold cumulative_weights. rewrite length_map. destruct ws as [|x ws]; simpl; [reflexivity|].
  by rewrite length_cumsum_from.
Qed.

(** X15.  The number of EOFs of [mode == 'frac'] lies between one and the
    number of weights plus one, whatever the weights. *)
Theorem frac_feofs_bounds (output : string) (weights : list (Num L)) (feofs : Z) :
  parse_weights L (splitlines L output) = Ok weights ->
  frac_feofs L output = Ok feofs ->
  1 <= feofs <= Z.of_nat (length weights) + 1.
Proof.
  intros Hp. unfold frac_feofs. rewrite Hp. cbn [rbind]. intros [= <-].
  unfold searchsorted.
  pose proof (binsearch_bounds (cumulative_weights L weights) (float_0_9 L)
                (length (cumulative_weights L weights)) 0
                (length (cumulative_weights L weights)) ltac:(lia)) as H.
  rewrite length_cumulative_weights in H. rewrite length_cumulative_weights. lia.
Qed.

(** *** The files after a projection *)

Local Abbreviation keepsf := (keeps (files L)).






End Facts.

Import EofToy.

Definition world_fit : World lib :=
  mk_world lib (<["/scratch/X1/012/thetao.nc" := [5]]> (files lib world)) [].

Lemma fit_prepared :
  prepared lib "X1" "thetao" 12 5 world_fit obs [2005] [2005] [10; 20; 30] [0].
Proof.
  split.
  - eexists. split; [reflexivity|]. vm_compute. reflexivity.
  - vm_compute. reflexivity.
  - vm_compute. reflexivity.
  - eexists. split; vm_compute; reflexivity.
  - vm_compute. reflexivity.
Defined.

Lemma process_data_rejects_bad_arguments_witness :
  process_data lib [1] "pattern" "4D" "T" = Raise ValueError.
Proof.
  apply (process_data_rejects_bad_arguments lib [1] "pattern" "4D" "T").
  left. refine (bool_decide_unpack _ _). vm_compute. exact I.
Defined.


Lemma fit_mode_fits_the_field_witness :
  project_eofs lib "X1" "thetao" 12 3 5 "fit" world_fit =
    (Ok [5],
     mk_world lib (<[eof_file lib "X1" "thetao" 12 := netcdf_encode lib [5]]> (files lib world_fit))
       (trace lib world_fit ++
        [EvOpen lib (pattern_file lib "X1" "thetao" 12);
         EvOpen lib (leg_file lib "X1" 12 ("thetao" +:+ ".nc"));
         EvRemove lib (eof_file lib "X1" "thetao" 12);
         EvToNetcdf lib (eof_file lib "X1" "thetao" 12) [5]])).
Proof.
  apply (fit_mode_fits_the_field lib "X1" "thetao" 12 3 5 world_fit obs
           [2005] [2005] [10; 20; 30] [0] [5] [5] [5] [5]).
  - exact fit_prepared.
  - vm_compute. reflexivity.
  - vm_compute. reflexivity.
  - vm_compute. reflexivity.
  - vm_compute. reflexivity.
Defined.

Lemma missing_pattern_file_is_fatal_witness :
  project_eofs lib "X1" "thetao" 12 3 5 "fit" (mk_world lib ∅ []) =
    (Raise OSError,
     mk_world lib ∅ [EvOpen lib (pattern_file lib "X1" "thetao" 12)]).
Proof.
  apply (missing_pattern_file_is_fatal lib "X1" "thetao" 12 3 5 (mk_world lib ∅ []) "fit"
           {[ "thetao" := obs ]} obs [2005] [2005]); vm_compute; reflexivity.
Defined.


Lemma parse_weights_one_per_Mean_line_witness :
  Forall2 (weight_of_line lib)
    (List.filter (contains "Mean") ["0 : Mean : a : 6"; "x"; "2 : Mean : a : 1"]) [6; 1].
Proof.
  apply (parse_weights_one_per_Mean_line lib ["0 : Mean : a : 6"; "x"; "2 : Mean : a : 1"] [6; 1]).
  vm_compute. reflexivity.
Defined.

Lemma frac_without_weights_uses_one_eof_witness :
  frac_feofs lib "cdo: no output" = Ok 1.
Proof.
  apply (frac_without_weights_uses_one_eof lib "cdo: no output").
  change (Forall (fun line => contains "Mean" line = false) ["cdo: no output"]).
  constructor; [vm_compute; reflexivity|constructor].
Defined.

Lemma frac_feofs_bounds_witness :
  1 <= 2 <= Z.of_nat (length [6; 3; 1]) + 1.
Proof.
  apply (frac_feofs_bounds lib "0 : Mean : a : 6|1 : Mean : a : 3|2 : Mean : a : 1"
           [6; 3; 1] 2); vm_compute; reflexivity.
Defined.

End EofModes.

(** ** The reader of restart files: exceptions *)

Module ReaderRestartErrors.

Import RestartReader LoopFacts RestartFacts.

Section Facts.

Variable L : Lib.

(** X17.  An exception of the first read other than [FileNotFoundError] is
    the outcome of [reader_restart]: nothing is rebuilt and the read is not
    repeated. *)
Theorem reader_restart_propagates_other_errors expname startyear endyear (w : World L) e s1 :
  reader_rebuilt L expname (get_leg L startyear) (get_leg L endyear) (fs L w) = (Raise e, s1) ->
  e <> FileNotFoundError ->
  reader_restart L expname startyear endyear w =
    (Raise e,
     mk_world L s1
       (calls L w ++ [CallReaderRebuilt expname (get_leg L startyear) (get_leg L endyear)])).
Proof.
  intros H He. unfold reader_restart, bind, except_FileNotFoundError, call. rewrite H.
  destruct e; try reflexivity. contradiction.
Qed.

(** X18.  A rebuild that raises ends [reader_restart] with its exception:
    the legs after it are not rebuilt and the read is not tried again. *)
Theorem reader_restart_stops_at_failed_rebuild
    expname startyear endyear (w : World L) s1 s2 s3 before leg after e :
  let startleg := get_leg L startyear in
  let endleg := get_leg L endyear in
  reader_rebuilt L expname startleg endleg (fs L w) = (Raise FileNotFoundError, s1) ->
  range2 startleg (endleg + 1) = before ++ leg :: after ->
  for_each before (rebuilder L expname) s1 = (Ok tt, s2) ->
  rebuilder L expname leg s2 = (Raise e, s3) ->
  reader_restart L expname startyear endyear w =
    (Raise e,
     mk_world L s3
       (calls L w ++ [CallReaderRebuilt expname startleg endleg] ++
        map (CallRebuilder expname) (before ++ [leg]))).
Proof.
  intros startleg endleg Hread Hlegs Hbefore Hleg. subst startleg endleg.
  unfold reader_restart. unfold bind at 1. unfold except_FileNotFoundError. unfold call at 1.
  rewrite Hread. unfold bind at 1. rewrite Hlegs, for_each_app. unfold bind at 1.
  rewrite (rebuild_loop L expname before (mk_world L s1 _) s2 Hbefore).
  cbn [for_each]. unfold bind at 1. unfold call at 1. cbn [fs calls]. rewrite Hleg.
  rewrite map_app, <- !app_assoc. reflexivity.
Qed.

End Facts.

(** A library whose first read fails for a reason other than a missing
    file, and one whose rebuild of leg 3 fails. *)
Definition lib_unreadable : Lib :=
  {| FS := list Z; Data := list Z;
     get_leg := fun year => year - 1990 + 2;
     reader_rebuilt := fun _ _ _ s => (Raise OSError, s);
     rebuilder := fun _ leg s => (Ok tt, leg :: s) |}.

Definition lib_failing : Lib :=
  {| FS := list Z; Data := list Z;
     get_leg := fun year => year - 1990 + 2;
     reader_rebuilt := fun _ _ _ s => (Raise FileNotFoundError, s);
     rebuilder := fun _ leg s =>
       if leg =? 3 then (Raise CalledProcessError, s) else (Ok tt, leg :: s) |}.

Lemma reader_restart_propagates_other_errors_witness :
  reader_restart lib_unreadable "X1" 1990 1992 (mk_world lib_unreadable [] []) =
    (Raise OSError,
     mk_world lib_unreadable [] [CallReaderRebuilt "X1" 2 4]).
Proof.
  apply (reader_restart_propagates_other_errors lib_unreadable "X1" 1990 1992
           (mk_world lib_unreadable [] []) OSError []).
  - reflexivity.
  - intros H; discriminate H.
Defined.

Lemma reader_restart_stops_at_failed_rebuild_witness :
  reader_restart lib_failing "X1" 1990 1992 (mk_world lib_failing [] []) =
    (Raise CalledProcessError,
     mk_world lib_failing [2]
       [CallReaderRebuilt "X1" 2 4; CallRebuilder "X1" 2; CallRebuilder "X1" 3]).
Proof.
  apply (reader_restart_stops_at_failed_rebuild lib_failing "X1" 1990 1992
           (mk_world lib_failing [] []) [] [2] [2] [2] 3 [4] CalledProcessError);
    reflexivity.
Defined.

End ReaderRestartErrors.

(** ** The roll-back tool: the document and the files *)

Module RollbackDocument.

Import Rollback RollbackFacts Frames.

Section Facts.

Variable L : Lib.

Local Abbreviation Yaml := (Yaml (Date L)).

(** Two key paths part at some key. *)
Definition diverge (qs ps : list string) : Prop :=
  exists pre a b qs' ps', qs = pre ++ a :: qs' /\ ps = pre ++ b :: ps' /\ a <> b.

(** An assignment along a path leaves what lies off the path as it is. *)
Lemma yaml_set_path_other (ks : list string) (k : string) (v d d' : Yaml) (qs : list string) :
  yaml_set_path L d ks k v = Ok d' ->
  diverge qs (ks ++ [k]) ->
  yaml_get_path L d' qs = yaml_get_path L d qs.
Proof.
  intros Hset (pre & a & b & qs' & ps' & -> & Hps & Hab).
  revert d d' ks Hset Hps. induction pre as [|c pre IH]; intros d d' ks Hset Hps.
  - destruct ks as [|k1 ks]; simpl in *.
    + injection Hps as <- _. destruct d; simpl in *; try discriminate.
      injection Hset as <-. simpl. rewrite assoc_get_set_ne by congruence. reflexivity.
    + injection Hps as <- _. destruct d; simpl in *; try discriminate.
      destruct (assoc_get L m k1) as [d1|]; simpl in *; [|discriminate].
      destruct (yaml_set_path L d1 ks k v) as [d1'|]; simpl in *; [|discriminate].
      injection Hset as <-. simpl. rewrite assoc_get_set_ne by congruence. reflexivity.
  - destruct ks as [|k1 ks]; simpl in *.
    + injection Hps as _ Hnil. destruct pre; discriminate.
    + injection Hps as <- Hps. destruct d; simpl in *; try discriminate.
      destruct (assoc_get L m k1) as [d1|] eqn:Hk; simpl in *; [|discriminate].
      destruct (yaml_set_path L d1 ks k v) as [d1'|] eqn:H1; simpl in *; [|discriminate].
      injection Hset as <-. simpl. rewrite assoc_get_set_eq. simpl.
      by apply (IH d1 d1' ks).
Qed.

Lemma update_leginfo_run expname leg (w : World L) c leginfo n num start newdate :
  files L w !! legfile_of expname = Some c ->
  yaml_load L c = Ok leginfo ->
  leg_entry L leginfo num start ->
  int L leg = Ok n ->
  add_years L start (n - num) = Ok newdate ->
  update_leginfo L expname leg w =
    bind (if n <? num then
            bind (lift (yaml_set_path L leginfo leg_path "num" (YInt n))) (fun leginfo1 =>
            bind (lift (yaml_set_path L leginfo1 leg_path "start" (YDate newdate))) (fun leginfo2 =>
            bind (print L ("Updating the leginfo to leg number " +:+ leg)) (fun _ =>
            write_yaml L (legfile_of expname) leginfo2)))
          else if n =? num then print L "Nothing to do on the leginfo.yaml"
          else raise ValueError)
         (fun _ => ret (newdate, start)) w.
Proof.
  intros Hf Hload (m & Hpath & Hnum & Hstart) Hint Hadd.
  unfold update_leginfo, read_yaml, yaml_getitem.
  unfold bind, lift, gets. rewrite Hf, Hload, Hpath, Hint. cbn [rbind].
  destruct (getitem (assoc_get L m "num")) as [vn|]; [|discriminate]. cbn [rbind] in *.
  rewrite Hnum. cbn [rbind].
  destruct (getitem (assoc_get L m "start")) as [vs|]; [|discriminate]. cbn [rbind] in *.
  rewrite Hstart. cbn [rbind]. rewrite Hadd. reflexivity.
Qed.

(** X19.  A roll-back rewrites the number and the start date of the leg and
    nothing else: every entry of the document whose path parts from those
    of the two reads as before. *)
Theorem rollback_keeps_the_rest_of_leginfo
    expname leg (w : World L) c leginfo n num start newdate :
  files L w !! legfile_of expname = Some c ->
  yaml_load L c = Ok leginfo ->
  leg_entry L leginfo num start ->
  int L leg = Ok n ->
  add_years L start (n - num) = Ok newdate ->
  n < num ->
  exists leginfo',
    files L (update_leginfo L expname leg w).2 !! legfile_of expname =
      Some (yaml_dump L leginfo') /\
    leg_entry L leginfo' n newdate /\
    forall qs,
      diverge qs (leg_path ++ ["num"]) -> diverge qs (leg_path ++ ["start"]) ->
      yaml_get_path L leginfo' qs = yaml_get_path L leginfo qs.
Proof.
  intros Hf Hload Hentry Hint Hadd Hlt.
  rewrite (update_leginfo_run expname leg w c leginfo n num start newdate Hf Hload Hentry Hint Hadd).
  destruct Hentry as (m & Hpath & Hnum & Hstart).
  apply Z.ltb_lt in Hlt. rewrite Hlt.
  destruct (yaml_set_path_get L leg_path leginfo m "num" (YInt n) Hpath) as (d1 & Hs1 & Hg1).
  destruct (yaml_set_path_get L leg_path d1 _ "start" (YDate newdate) Hg1) as (d2 & Hs2 & Hg2).
  exists d2. split; [|split].
  - unfold bind, lift, print, write_yaml, modify, ret. rewrite Hs1, Hs2. cbn.
    apply lookup_insert_eq.
  - eexists. split; [exact Hg2|]. split.
    + rewrite assoc_get_set_ne by discriminate. rewrite assoc_get_set_eq. reflexivity.
    + rewrite assoc_get_set_eq. reflexivity.
  - intros qs Hq1 Hq2.
    rewrite (yaml_set_path_other leg_path "start" _ d1 d2 qs Hs2 Hq2).
    exact (yaml_set_path_other leg_path "num" _ leginfo d1 qs Hs1 Hq1).
Qed.

(** *** The files after the update *)

Local Abbreviation keepsf := (keeps (files L)).

Lemma keeps_print line : keepsf (print L line).
Proof. apply keeps_modify. reflexivity. Qed.

Lemma keeps_read_yaml path : keepsf (read_yaml L path).
Proof.
  unfold read_yaml. apply keeps_bind; [apply keeps_gets|].
  intros [c|]; [apply keeps_lift|apply keeps_raise].
Qed.

Definition leginfo_outcome (expname : string) (w : World L)
    (run : Result (Date L * Date L) * World L) : Prop :=
  (forall path, path <> legfile_of expname -> files L run.2 !! path = files L w !! path) /\
  (is_ok run.1 = false -> files L run.2 = files L w).

(** X20.  The update touches no file but [leginfo.yml], and when it ends in
    an exception it has touched no file at all. *)
Theorem update_leginfo_touches_only_leginfo expname leg (w : World L) :
  leginfo_outcome expname w (update_leginfo L expname leg w).
Proof.
  unfold update_leginfo.
  assert (Hsame : forall r (w1 : World L), files L w1 = files L w ->
            leginfo_outcome expname w (r, w1)).
  { intros r w1 H. split; intros; cbn; by rewrite H. }
  apply (outcome_bind (files L)); [apply keeps_read_yaml|intros; by apply Hsame|].
  intros leginfo w1 H1.
  apply (outcome_bind (files L)); [apply keeps_lift|intros; apply Hsame; congruence|].
  intros info w2 H2.
  apply (outcome_bind (files L)); [apply keeps_lift|intros; apply Hsame; congruence|].
  intros deltayear w3 H3.
  apply (outcome_bind (files L)); [apply keeps_lift|intros; apply Hsame; congruence|].
  intros newdate w4 H4.
  apply (outcome_bind (files L)); [apply keeps_lift|intros; apply Hsame; congruence|].
  intros orgdate w5 H5.
  apply (outcome_bind (files L)); [apply keeps_lift|intros; apply Hsame; congruence|].
  intros n w6 H6.
  apply (outcome_bind (files L)); [apply keeps_lift|intros; apply Hsame; congruence|].
  intros num w7 H7.
  assert (Hw7 : files L w7 = files L w) by congruence.
  destruct (n <? num).
  - unfold bind at 1.
    apply (outcome_bind (files L)
             (fun run => leginfo_outcome expname w
                (let (r, w') := run in
                 match r with Ok a => ret (newdate, orgdate) w' | Raise e => (Raise e, w') end)));
      [apply keeps_lift|intros; apply Hsame; congruence|].
    intros n' w8 H8.
    apply (outcome_bind (files L)
             (fun run => leginfo_outcome expname w
                (let (r, w') := run in
                 match r with Ok a => ret (newdate, orgdate) w' | Raise e => (Raise e, w') end)));
      [apply keeps_lift|intros; apply Hsame; congruence|].
    intros d1 w9 H9.
    apply (outcome_bind (files L)
             (fun run => leginfo_outcome expname w
                (let (r, w') := run in
                 match r with Ok a => ret (newdate, orgdate) w' | Raise e => (Raise e, w') end)));
      [apply keeps_lift|intros; apply Hsame; congruence|].
    intros d2 w10 H10.
    apply (outcome_bind (files L)
             (fun run => leginfo_outcome expname w
                (let (r, w') := run in
                 match r with Ok a => ret (newdate, orgdate) w' | Raise e => (Raise e, w') end)));
      [apply keeps_print|intros; apply Hsame; congruence|].
    intros _ w11 H11.
    unfold write_yaml, modify, ret. split; cbn.
    + intros path Hp. rewrite lookup_insert_ne by congruence. congruence.
    + discriminate.
  - apply (outcome_bind (files L)).
    { apply keeps_bind; [apply keeps_lift|]. intros n'.
      apply keeps_bind; [apply keeps_lift|]. intros num'.
      destruct (n' =? num'); [apply keeps_print|apply keeps_raise]. }
    { intros; apply Hsame; congruence. }
    intros _ w8 H8. apply Hsame. cbn. congruence.
Qed.

End Facts.

Lemma rollback_keeps_the_rest_of_leginfo_witness :
  exists leginfo',
    files RollbackToy.lib (update_leginfo RollbackToy.lib "X1" "3" RollbackToy.world).2
      !! legfile_of "X1" = Some (yaml_dump RollbackToy.lib leginfo') /\
    leg_entry RollbackToy.lib leginfo' 3 1992 /\
    forall qs,
      diverge qs (leg_path ++ ["num"]) -> diverge qs (leg_path ++ ["start"]) ->
      yaml_get_path RollbackToy.lib leginfo' qs =
      yaml_get_path RollbackToy.lib (RollbackToy.leginfo 5 1994) qs.
Proof.
  apply (rollback_keeps_the_rest_of_leginfo RollbackToy.lib "X1" "3" RollbackToy.world
           (RollbackToy.leginfo 5 1994) (RollbackToy.leginfo 5 1994) 3 5 1994 1992).
  - vm_compute. reflexivity.
  - reflexivity.
  - eexists. split; [reflexivity|]. split; reflexivity.
  - reflexivity.
  - reflexivity.
  - lia.
Defined.

End RollbackDocument.

(** ** The roll-back tool: restored restarts and removed output *)

Module RollbackRestoreFacts.

Import Rollback RollbackFacts RollbackRestore LoopFacts.

Lemma append_cons (x : Ascii.ascii) (s t : string) :
  String x s +:+ t = String x (s +:+ t).
Proof. reflexivity. Qed.

Lemma append_empty_l (t : string) : EmptyString +:+ t = t.
Proof. reflexivity. Qed.

Lemma append_empty_r (s : string) : s +:+ EmptyString = s.
Proof. induction s as [|x s IH]; [reflexivity|]. by rewrite append_cons, IH. Qed.

Lemma split_nonempty c s : split c s <> [].
Proof.
  destruct s as [|a s]; simpl; [discriminate|].
  destruct (Ascii.eqb a c); [discriminate|]. destruct (split c s); discriminate.
Qed.

Lemma split_field c a t :
  has_char c a = false -> split c (a +:+ String c t) = a :: split c t.
Proof.
  induction a as [|x a IH]; intros H.
  - rewrite append_empty_l. simpl. rewrite Ascii.eqb_refl. reflexivity.
  - simpl in H. apply orb_false_iff in H as [Hx Ha].
    rewrite append_cons. simpl. rewrite Hx, (IH Ha). reflexivity.
Qed.

Lemma split_no_sep c s : has_char c s = false -> split c s = [s].
Proof.
  induction s as [|x s IH]; simpl; intros H; [reflexivity|].
  apply orb_false_iff in H as [Hx Hs]. rewrite Hx, (IH Hs). reflexivity.
Qed.

Lemma join_split c s : join (String c EmptyString) (split c s) = s.
Proof.
  induction s as [|x s IH]; simpl; [reflexivity|].
  destruct (Ascii.eqb_spec x c) as [->|Hx].
  - pose proof (split_nonempty c s) as Hne.
    destruct (split c s) as [|h t]; [contradiction|].
    simpl in *. rewrite IH. reflexivity.
  - pose proof (split_nonempty c s) as Hne.
    destruct (split c s) as [|h t]; [contradiction|].
    destruct t as [|h' t]; simpl in *; rewrite <- IH; reflexivity.
Qed.

Lemma has_char_app c a b : has_char c (a +:+ b) = has_char c a || has_char c b.
Proof.
  induction a as [|x a IH]; [reflexivity|].
  rewrite append_cons. simpl. rewrite IH. apply orb_assoc.
Qed.

Lemma basename_in_folder d b :
  has_char "/" b = false -> basename (d +:+ String "/" b) = b.
Proof.
  intros Hb. induction d as [|x d IH].
  - rewrite append_empty_l. simpl. rewrite Hb. reflexivity.
  - rewrite append_cons. simpl. rewrite has_char_app. simpl. rewrite orb_true_r. exact IH.
Qed.

(** X22.  A NEMO restart is linked under its name without the first two
    fields, those before the second underscore. *)
Theorem nemo_link_drops_two_fields (exp folder a b rest : string) :
  let basefile := a +:+ String "_" (b +:+ String "_" rest) in
  has_char "_" a = false -> has_char "_" b = false ->
  has_char "/" basefile = false ->
  basefile ∉ ["rstas.nc"; "rstos.nc"; "rcf"] ->
  contains "srf" basefile = false ->
  contains "restart" basefile = true ->
  restore_action exp (folder +:+ String "/" basefile) =
    Some (Symlink (folder +:+ String "/" basefile) (path_join exp rest)).
Proof.
  intros basefile Ha Hb Hsep Hcopy Hsrf Hrestart.
  unfold restore_action. rewrite (basename_in_folder folder basefile Hsep).
  rewrite bool_decide_eq_false_2 by exact Hcopy. rewrite Hsrf, Hrestart.
  unfold newfile, basefile.
  rewrite (split_field "_" a _ Ha), (split_field "_" b _ Hb).
  rewrite !skipn_cons, drop_0, (join_split "_" rest). reflexivity.
Qed.

(** X23.  A restart file whose name has fewer than two underscores is
    linked under the empty name, the path of the experiment folder itself,
    whatever its name. *)
Theorem nemo_link_without_two_underscores (exp folder a b : string) :
  let basefile := a +:+ b in
  has_char "_" a = false ->
  b = EmptyString \/ (exists b', b = String "_" b' /\ has_char "_" b' = false) ->
  has_char "/" basefile = false ->
  basefile ∉ ["rstas.nc"; "rstos.nc"; "rcf"] ->
  contains "srf" basefile = false ->
  contains "restart" basefile = true ->
  restore_action exp (folder +:+ String "/" basefile) =
    Some (Symlink (folder +:+ String "/" basefile) (path_join exp "")).
Proof.
  intros basefile Ha Hb Hsep Hcopy Hsrf Hrestart.
  unfold restore_action. rewrite (basename_in_folder folder basefile Hsep).
  rewrite bool_decide_eq_false_2 by exact Hcopy. rewrite Hsrf, Hrestart.
  unfold newfile, basefile.
  destruct Hb as [->|(b' & -> & Hb')].
  - rewrite append_empty_r, (split_no_sep "_" a Ha). reflexivity.
  - rewrite (split_field "_" a _ Ha), (split_no_sep "_" b' Hb'). reflexivity.
Qed.

Section Years.

Variable L : Lib.

(** X21.  The years whose output is removed are those rolled back, one for
    each leg, up to the year before the recorded start, when
    [relativedelta(years=n)] moves the year by [n]; none when the leg is
    the recorded one. *)
Theorem output_removed_for_rolled_back_years
    expname leg (w : World L) c leginfo n num start newdate :
  files L w !! legfile_of expname = Some c ->
  yaml_load L c = Ok leginfo ->
  leg_entry L leginfo num start ->
  int L leg = Ok n ->
  add_years L start (n - num) = Ok newdate ->
  date_year L newdate = date_year L start + (n - num) ->
  n <= num ->
  exists dates,
    (update_leginfo L expname leg w).1 = Ok dates /\
    forall year,
      year ∈ output_years L dates <->
      date_year L start - (num - n) <= year < date_year L start.
Proof.
  intros Hf Hload (m & Hpath & Hnum & Hstart) Hint Hadd Hyear Hle.
  exists (newdate, start). split.
  - unfold update_leginfo, read_yaml, yaml_getitem.
    unfold bind, lift, gets. rewrite Hf, Hload, Hpath, Hint. cbn [rbind].
    destruct (getitem (assoc_get L m "num")) as [vn|]; [|discriminate]. cbn [rbind] in *.
    rewrite Hnum. cbn [rbind].
    destruct (getitem (assoc_get L m "start")) as [vs|]; [|discriminate]. cbn [rbind] in *.
    rewrite Hstart. cbn [rbind]. rewrite Hadd.
    destruct (Z.ltb_spec n num) as [Hlt|Hge].
    + destruct (yaml_set_path_get L leg_path leginfo m "num" (YInt n) Hpath) as (d1 & Hs1 & Hg1).
      destruct (yaml_set_path_get L leg_path d1 _ "start" (YDate newdate) Hg1) as (d2 & Hs2 & Hg2).
      rewrite Hs1. cbn [rbind]. rewrite Hs2. reflexivity.
    + assert (n = num) as -> by lia. rewrite Z.eqb_refl. reflexivity.
  - intros year. unfold output_years. cbn [fst snd]. rewrite elem_of_range2, Hyear. lia.
Qed.

End Years.

Lemma nemo_link_drops_two_fields_witness :
  restore_action "/run/X1" ("/run/X1/restart/003" +:+
      String "/" ("X1" +:+ String "_" ("00001234" +:+ String "_" "restart_oce_0000.nc"))) =
    Some (Symlink
            ("/run/X1/restart/003" +:+
             String "/" ("X1" +:+ String "_" ("00001234" +:+ String "_" "restart_oce_0000.nc")))
            (path_join "/run/X1" "restart_oce_0000.nc")).
Proof.
  apply (nemo_link_drops_two_fields "/run/X1" "/run/X1/restart/003" "X1" "00001234"
           "restart_oce_0000.nc"); try (vm_compute; reflexivity).
  refine (bool_decide_unpack _ _). vm_compute. exact I.
Defined.

Lemma nemo_link_without_two_underscores_witness :
  restore_action "/run/X1" ("/run/X1/restart/003" +:+ String "/" ("restart.nc" +:+ "")) =
    Some (Symlink ("/run/X1/restart/003" +:+ String "/" ("restart.nc" +:+ ""))
            (path_join "/run/X1" "")).
Proof.
  apply (nemo_link_without_two_underscores "/run/X1" "/run/X1/restart/003" "restart.nc" "");
    try (vm_compute; reflexivity).
  - left. reflexivity.
  - refine (bool_decide_unpack _ _). vm_compute. exact I.
Defined.

Lemma output_removed_for_rolled_back_years_witness :
  exists dates,
    (update_leginfo RollbackToy.lib "X1" "3" RollbackToy.world).1 = Ok dates /\
    forall year,
      year ∈ output_years RollbackToy.lib dates <->
      date_year RollbackToy.lib 1994 - (5 - 3) <= year < date_year RollbackToy.lib 1994.
Proof.
  apply (output_removed_for_rolled_back_years RollbackToy.lib "X1" "3" RollbackToy.world
           (RollbackToy.leginfo 5 1994) (RollbackToy.leginfo 5 1994) 3 5 1994 1992).
  - vm_compute. reflexivity.
  - reflexivity.
  - eexists. split; [reflexivity|]. split; reflexivity.
  - reflexivity.
  - reflexivity.
  - reflexivity.
  - lia.
Defined.

End RollbackRestoreFacts.

(** ** The descriptor generator *)

Module DescriptorFacts.

Import Descriptor.

Lemma keep_app p a b : keep p (a +:+ b) = keep p a +:+ keep p b.
Proof.
  induction a as [|x a IH]; [reflexivity|].
  rewrite RollbackRestoreFacts.append_cons. simpl.
  destruct (p x); rewrite ?RollbackRestoreFacts.append_cons; by rewrite IH.
Qed.

Fixpoint all_chars (p : Ascii.ascii -> bool) (s : string) : bool :=
  match s with
  | EmptyString => true
  | String a s' => p a && all_chars p s'
  end.

Lemma keep_all p s : all_chars p s = true -> keep p s = s.
Proof.
  induction s as [|x s IH]; simpl; [reflexivity|]. intros H.
  apply andb_true_iff in H as [Hx Hs]. rewrite Hx, (IH Hs). reflexivity.
Qed.

Lemma keep_none p s : all_chars (fun a => negb (p a)) s = true -> keep p s = EmptyString.
Proof.
  induction s as [|x s IH]; simpl; [reflexivity|]. intros H.
  apply andb_true_iff in H as [Hx Hs]. apply negb_true_iff in Hx. rewrite Hx. exact (IH Hs).
Qed.

(** X24.  [get_info_grid] drops the first letter of the grid name, selects
    the ECMWF name by the letters after it whatever their case, and returns
    the digits as the spectral truncation; [KeyError] for another kind. *)
Theorem get_info_grid_kind_and_truncation (c : Ascii.ascii) (kind digits : string) :
  all_chars is_ascii (String c kind) = true ->
  is_digit c = false ->
  all_chars (fun a => negb (is_digit a)) kind = true ->
  all_chars is_digit digits = true ->
  get_info_grid (String c (kind +:+ digits)) =
    let* name := getitem (ecmwf_name (upper kind)) in Ok (digits, name).
Proof.
  intros _ Hc Hk Hd. unfold get_info_grid. cbn [keep]. rewrite Hc. cbn [negb tail].
  rewrite !keep_app.
  rewrite (keep_all _ kind Hk).
  assert (Hd' : all_chars (fun a => negb (negb (is_digit a))) digits = true).
  { clear -Hd. induction digits as [|x s IH]; simpl in *; [reflexivity|].
    apply andb_true_iff in Hd as [Hx Hs]. rewrite Hx, (IH Hs). reflexivity. }
  rewrite (keep_none _ digits Hd'), RollbackRestoreFacts.append_empty_r.
  rewrite (keep_none is_digit kind Hk), (keep_all _ digits Hd). reflexivity.
Qed.

Lemma get_info_grid_kind_and_truncation_witness :
  get_info_grid (String "T" ("co" +:+ "319")) =
    let* name := getitem (ecmwf_name (upper "co")) in Ok ("319", name).
Proof.
  apply (get_info_grid_kind_and_truncation "T" "co" "319"); reflexivity.
Defined.

End DescriptorFacts.
